(** * The animation editor of LumixEngine (src/animation/editor/animation_editor.cpp)

    A shallow embedding of the class [AnimEditor::AnimationEditor]: its
    fields are a record, the controller resource it owns is a second record,
    and its member functions are computations of a state monad that threads
    the editor, the resource, the state of everything the file does not own
    (GUI library, file system, dialogs, world editor, resource manager) and
    the list of the calls the editor made into it, with their results.

    The "Inputs" and "Constants" panels ([inputsGUI]'s first header,
    [constantsGUI], [onSetInputGUI]) only edit the input declaration, a
    structure of fixed arrays and overlapping value fields that is declared
    outside of this file; they are not embedded.  Code the editor calls is
    taken not to call back into the editor. *)

From Stdlib Require Import ZArith List String Ascii Strings.Byte Bool Lia.
From Stdlib Require Import Floats.SpecFloat.
From stdpp Require Import base list strings.

Local Open Scope string_scope.
Local Open Scope list_scope.
Local Open Scope Z_scope.

(** ** Scalars *)

(** [u32], [int] and [size_t] are integers; the conversions the code performs
    are written out where it performs them. *)
Definition u32 := Z.
Definition int := Z.

(** [(int)e] for a [size_t] value: the low 32 bits, read as two's complement. *)
Definition int_of_size_t (n : Z) : int :=
  (n + 2147483648) mod 4294967296 - 2147483648.

(** [float] is IEEE 754 binary32: 24 bits of precision, exponents below 128. *)
Definition f32 := spec_float.
Definition f32_add (a b : f32) : f32 := SFadd 24 128 a b.
Definition f32_of_Z (n : Z) : f32 := binary_normalize 24 128 n 0 false.

(** Addresses of objects owned by the engine or allocated by its allocator. *)
Definition ptr := Z.
Definition nullptr : ptr := 0.

Definition Entity := Z.
Definition ComponentHandle := Z.
Definition INVALID_COMPONENT : ComponentHandle := -1.

(** [PropertyRegister::getComponentType(name)] and [ResourceType(name)] are
    kept as the name they were built from. *)
Inductive ComponentType := getComponentType (name : string).
Inductive ResourceType := mkResourceType (name : string).

Definition ANIMABLE_HASH := getComponentType "animable".
Definition CONTROLLER_TYPE := getComponentType "anim_controller".
Definition ANIMATION_TYPE := mkResourceType "animation".
Definition CONTROLLER_RESOURCE_TYPE := mkResourceType "anim_controller".

(** ** ImVec2 and the file's [operator+] *)

Record ImVec2 := mkImVec2 { x : f32; y : f32 }.

Definition ImVec2_add (lhs rhs : ImVec2) : ImVec2 :=
  mkImVec2 (f32_add (x lhs) (x rhs)) (f32_add (y lhs) (y rhs)).

(** ** C strings *)

(** A string literal with embedded NUL characters, as in
    ["Animation controllers\0*.act\0"]. *)
Definition NUL : ascii := Ascii.zero.
Definition nul (rest : string) : string := String NUL rest.

(** [copyString(char (&dest)[N], src)]: at most [N - 1] characters of [src]. *)
Definition copyString (N : nat) (src : string) : string :=
  String.substring 0 (N - 1) src.

(** [lengthOf(slot_cstr)] for [char slot_cstr[64]]. *)
Definition SLOT_CSTR_LENGTH : nat := 64.

(** [s[0] == 0] on a NUL-terminated character buffer. *)
Definition cstr_empty (s : string) : bool :=
  match s with
  | EmptyString => true
  | String _ _ => false
  end.

(** ** The controller resource, as far as this file reads and writes it *)

(** [Anim::ControllerResource::AnimSetEntry] *)
Record AnimSetEntry := mkAnimSetEntry {
  set : int;
  hash : u32;
  animation : ptr
}.

(** The editor-side [ControllerResource] together with the engine resource
    [getEngineResource()] returns. *)
Record ControllerResource := mkControllerResource {
  getRoot : ptr;
  getAnimationSlots : list string;
  m_animation_set : list AnimSetEntry;
  m_sets_names : list string
}.

(** ** The editor object *)

Inductive EventEditor := NoEditor | onSetInputGUI.

Record EventType := mkEventType {
  type : u32;
  label : string;
  size : int;
  editor : EventEditor
}.

Record AnimationEditor := mkAnimationEditor {
  m_editor_opened : bool;
  m_inputs_opened : bool;
  m_offset : ImVec2;
  m_resource : ptr;
  m_container : ptr;
  m_path : string;
  m_event_types : list EventType
}.

(** ** Calls into code the file does not own *)

Inductive FSMode := OPEN_AND_READ | CREATE_AND_WRITE.

Inductive ImGuiWindowFlags := ImGuiWindowFlags_None | ImGuiWindowFlags_MenuBar.
Inductive ImGuiInputTextFlags :=
  ImGuiInputTextFlags_None | ImGuiInputTextFlags_EnterReturnsTrue.

(** ImGui functions that return [bool] and write nothing back. *)
Inductive ImGuiQuery :=
| BeginMenuBar
| BeginMenu (label : string)
| MenuItem (label : string) (shortcut : option string) (selected enabled : bool)
| BeginChild (str_id : string) (sz : ImVec2) (border : bool)
| IsWindowHovered
| IsAnyItemActive
| IsMouseDragging (button : int) (lock_threshold : f32)
| CollapsingHeader (label : string)
| Button (label : string).

(** ImGui functions that return nothing. *)
Inductive ImGuiCmd :=
| EndMenu
| EndMenuBar
| EndChild
| EndDock
| Columns (count : int)
| NextColumn
| Separator
| SameLine
| Text (fmt : string)
| PushID_str (id : string)
| PushID_int (id : int)
| PopID
| PushItemWidth (w : f32)
| PopItemWidth.

(** One entry per call the editor makes, in program order, with what came
    back. *)
Inductive Event :=
| EvGetSaveFilename (buf : string) (max_size : int) (filter default_ext : string)
    (ok : bool) (out : string)
| EvGetOpenFilename (buf : string) (max_size : int) (filter default_ext : string)
    (ok : bool) (out : string)
| EvFileOpen (path : string) (mode : FSMode) (ok : bool)
| EvFileWrite (data : list byte) (len : int) (ok : bool)
| EvFileSize (n : Z)
| EvFileRead (len : int) (ok : bool) (data : list byte)
| EvFileClose
| EvSerialize (res : ptr) (obj : ControllerResource) (blob : list byte)
| EvDeserialize (res : ptr) (data : list byte) (len : int)
    (ok : bool) (obj' : ControllerResource)
| EvDelete (res : ptr) (obj : ControllerResource)
| EvNew (anim_sys manager res : ptr) (obj : ControllerResource)
| EvLogError (system message : string)
| EvImGui (q : ImGuiQuery) (r : bool)
| EvImGuiCmd (c : ImGuiCmd)
| EvMouseDelta (delta : ImVec2)
| EvBeginDock (name : string) (opened : bool) (flags : ImGuiWindowFlags)
    (r opened' : bool)
| EvInputText (label buf : string) (buf_size : int) (flags : ImGuiInputTextFlags)
    (r : bool) (out : string)
| EvResourceInput (label str_id buf : string) (max_size : int) (ty : ResourceType)
    (r : bool) (out : string)
| EvDrawInside (container draw : ptr) (canvas_screen_pos : ImVec2)
| EvDebugInside (root draw : ptr) (canvas_screen_pos : ImVec2)
    (runtime current : ptr)
| EvOnGUI (component : ptr)
| EvUnload (anim : ptr)
| EvLoad (manager : ptr) (path : string) (anim : ptr)
| EvAddWindowAction (label name : string).

(** Constants and pure helpers of the engine that the file uses and that are
    declared in headers outside of it. *)
Class Engine := {
  crc32 : string -> u32;
  MAX_PATH_LENGTH : nat;
  sizeof_SetInputEvent : int;
  isValid : ComponentHandle -> bool;
  (** [lengthOf(sets[j].data)] *)
  SET_NAME_LENGTH : nat
}.

(** Everything behind the calls: [W] is the state of the GUI library, the
    platform, the file system, the world editor and the resource managers.
    A function that ends in [W] reads it; one that ends in [_ * W] may also
    change it. *)
Class Host (W : Type) := {
  PlatformInterface_getSaveFilename :
    string -> int -> string -> string -> W -> bool * string * W;
  PlatformInterface_getOpenFilename :
    string -> int -> string -> string -> W -> bool * string * W;
  OsFile_open : string -> FSMode -> W -> bool * W;
  OsFile_write : list byte -> int -> W -> bool * W;
  OsFile_size : W -> Z;
  OsFile_read : int -> W -> bool * list byte * W;
  OsFile_close : W -> W;
  ControllerResource_serialize : ControllerResource -> W -> list byte;
  ControllerResource_deserialize :
    ControllerResource -> list byte -> int -> W -> bool * ControllerResource * W;
  ControllerResource_delete : ptr -> ControllerResource -> W -> W;
  ControllerResource_new : ptr -> ptr -> W -> ptr * ControllerResource * W;
  ResourceManager_get : ResourceType -> W -> ptr;
  PluginManager_getPlugin : string -> W -> ptr;
  ResourceManager_load : ptr -> string -> W -> ptr * W;
  ResourceManager_unload : ptr -> W -> W;
  Animation_getPath : ptr -> W -> string;
  log_error : string -> string -> W -> W;
  ImGui : ImGuiQuery -> W -> bool * W;
  ImGui_cmd : ImGuiCmd -> W -> W;
  ImGui_BeginDock : string -> bool -> ImGuiWindowFlags -> W -> bool * bool * W;
  ImGui_InputText :
    string -> string -> int -> ImGuiInputTextFlags -> W -> bool * string * W;
  ImGui_GetIO_MouseDelta : W -> ImVec2;
  ImGui_GetCursorScreenPos : W -> ImVec2;
  ImGui_GetWindowDrawList : W -> ptr;
  ImGui_GetColumnWidth : W -> f32;
  AssetBrowser_resourceInput :
    string -> string -> string -> int -> ResourceType -> W -> bool * string * W;
  WorldEditor_getSelectedEntities : W -> list Entity;
  AnimationScene_getComponent :
    ComponentType -> Entity -> ComponentType -> W -> ComponentHandle;
  AnimationScene_getControllerSource : ComponentType -> ComponentHandle -> W -> string;
  AnimationScene_getControllerRoot : ComponentType -> ComponentHandle -> W -> ptr;
  Container_getParent : ptr -> W -> ptr;
  Container_getSelectedComponent : ptr -> W -> ptr;
  Container_drawInside : ptr -> ptr -> ImVec2 -> W -> W;
  Component_debugInside : ptr -> ptr -> ImVec2 -> ptr -> ptr -> W -> W;
  Component_onGUI : ptr -> W -> W;
  StudioApp_addWindowAction : string -> string -> W -> W
}.

(** ** Lumix's [Array], on lists *)

Module Array.

(** [find(predicate)]: the index of the first element the predicate holds
    for, [-1] when there is none. *)
Fixpoint find_from {A} (p : A -> bool) (l : list A) (i : int) : int :=
  match l with
  | [] => -1
  | a :: l' => if p a then i else find_from p l' (i + 1)
  end.

Definition find {A} (p : A -> bool) (l : list A) : int := find_from p l 0.

(** [erase(index)]: removes the element at [index], keeping the order. *)
Definition erase {A} (i : int) (l : list A) : list A :=
  if (0 <=? i) && (i <? Z.of_nat (length l)) then delete (Z.to_nat i) l else l.

(** [eraseItems(predicate)]: removes every element the predicate holds for. *)
Definition eraseItems {A} (p : A -> bool) (l : list A) : list A :=
  List.filter (fun a => negb (p a)) l.

(** [push(value)] and [emplace(args)] append. *)
Definition push {A} (a : A) (l : list A) : list A := l ++ [a].

(** [operator[]] used as an lvalue. *)
Definition assign {A} (i : int) (a : A) (l : list A) : list A :=
  <[Z.to_nat i := a]> l.

(** [operator[]] used as an rvalue; the index is in range wherever the
    editor reads. *)
Definition get {A} (i : int) (l : list A) : option A := l !! Z.to_nat i.

Definition size {A} (l : list A) : int := Z.of_nat (length l).

End Array.

(** ** The state the member functions run in *)

Section State.

Variable W : Type.

Record Sys := mkSys {
  this : AnimationEditor;
  (** the object [m_resource] points to *)
  resource : ControllerResource;
  world : W;
  trace : list Event
}.

Definition M (A : Type) : Type := Sys -> A * Sys.

Definition ret {A} (a : A) : M A := fun s => (a, s).

Definition bind {A B} (m : M A) (k : A -> M B) : M B :=
  fun s => let (a, s') := m s in k a s'.

Definition exec {A} (m : M A) (s : Sys) : Sys := snd (m s).
Definition eval {A} (m : M A) (s : Sys) : A := fst (m s).

End State.

Arguments mkSys {W}.
Arguments this {W}.
Arguments resource {W}.
Arguments world {W}.
Arguments trace {W}.
Arguments ret {W A}.
Arguments bind {W A B}.
Arguments exec {W A}.
Arguments eval {W A}.

Notation "'do' x <- m ; k" := (bind m (fun x => k))
  (at level 10, x name, m at level 100, k at level 200,
   format "'[v' 'do'  x  <-  m ; '/' k ']'").
Notation "'do' ' p <- m ; k" := (bind m (fun x => match x with p => k end))
  (at level 10, p pattern, m at level 100, k at level 200).
Notation "m ;; k" := (bind m (fun _ => k))
  (at level 100, k at level 200, right associativity).

Section Primitives.

Context {E : Engine} {W : Type} {H : Host W}.

Local Abbreviation M := (M W).

(** *** Field access *)

Definition get {A} (f : AnimationEditor -> A) : M A := fun s => (f (this s), s).

Definition set_this (f : AnimationEditor -> AnimationEditor) : M unit :=
  fun s => (tt, mkSys (f (this s)) (resource s) (world s) (trace s)).

Definition get_resource {A} (f : ControllerResource -> A) : M A :=
  fun s => (f (resource s), s).

Definition set_resource (f : ControllerResource -> ControllerResource) : M unit :=
  fun s => (tt, mkSys (this s) (f (resource s)) (world s) (trace s)).

Definition set_m_editor_opened (b : bool) (e : AnimationEditor) :=
  mkAnimationEditor b (m_inputs_opened e) (m_offset e) (m_resource e)
    (m_container e) (m_path e) (m_event_types e).
Definition set_m_inputs_opened (b : bool) (e : AnimationEditor) :=
  mkAnimationEditor (m_editor_opened e) b (m_offset e) (m_resource e)
    (m_container e) (m_path e) (m_event_types e).
Definition set_m_offset (v : ImVec2) (e : AnimationEditor) :=
  mkAnimationEditor (m_editor_opened e) (m_inputs_opened e) v (m_resource e)
    (m_container e) (m_path e) (m_event_types e).
Definition set_m_resource (p : ptr) (e : AnimationEditor) :=
  mkAnimationEditor (m_editor_opened e) (m_inputs_opened e) (m_offset e) p
    (m_container e) (m_path e) (m_event_types e).
Definition set_m_container (p : ptr) (e : AnimationEditor) :=
  mkAnimationEditor (m_editor_opened e) (m_inputs_opened e) (m_offset e)
    (m_resource e) p (m_path e) (m_event_types e).
Definition set_m_path (p : string) (e : AnimationEditor) :=
  mkAnimationEditor (m_editor_opened e) (m_inputs_opened e) (m_offset e)
    (m_resource e) (m_container e) p (m_event_types e).
Definition set_m_event_types (l : list EventType) (e : AnimationEditor) :=
  mkAnimationEditor (m_editor_opened e) (m_inputs_opened e) (m_offset e)
    (m_resource e) (m_container e) (m_path e) l.

Definition set_getAnimationSlots (l : list string) (r : ControllerResource) :=
  mkControllerResource (getRoot r) l (m_animation_set r) (m_sets_names r).
Definition set_m_animation_set (l : list AnimSetEntry) (r : ControllerResource) :=
  mkControllerResource (getRoot r) (getAnimationSlots r) l (m_sets_names r).
Definition set_m_sets_names (l : list string) (r : ControllerResource) :=
  mkControllerResource (getRoot r) (getAnimationSlots r) (m_animation_set r) l.

(** *** Calls *)

(** A call that reads the world. *)
Definition read {A} (f : W -> A) : M A := fun s => (f (world s), s).

(** A call that may change the world; [ev] is the entry it leaves. *)
Definition call {A} (f : W -> A * W) (ev : A -> Event) : M A :=
  fun s =>
    let (a, w) := f (world s) in
    (a, mkSys (this s) (resource s) w (trace s ++ [ev a])).

Definition call_ (f : W -> W) (ev : Event) : M unit :=
  call (fun w => (tt, f w)) (fun _ => ev).

Definition imgui (q : ImGuiQuery) : M bool := call (ImGui q) (EvImGui q).
Definition imgui_ (c : ImGuiCmd) : M unit := call_ (ImGui_cmd c) (EvImGuiCmd c).

Definition when (b : bool) (m : M unit) : M unit := if b then m else ret tt.

(** [a && b] of C++: [b] is not evaluated when [a] is false. *)
Definition and_then (a b : M bool) : M bool :=
  do r <- a; if r then b else ret false.

(** [PlatformInterface::getSaveFilename(m_path.data, lengthOf(m_path.data),
    filter, default_ext)]: the dialog writes into the buffer of [m_path]. *)
Definition getSaveFilename_m_path (filter default_ext : string) : M bool :=
  do buf <- get m_path;
  let n := Z.of_nat MAX_PATH_LENGTH in
  do r <- call (fun w => let '(ok, out, w') :=
                  PlatformInterface_getSaveFilename buf n filter default_ext w in
                ((ok, out), w'))
               (fun r => EvGetSaveFilename buf n filter default_ext (fst r) (snd r));
  set_this (set_m_path (snd r));;
  ret (fst r).

Definition getOpenFilename_m_path (filter default_ext : string) : M bool :=
  do buf <- get m_path;
  let n := Z.of_nat MAX_PATH_LENGTH in
  do r <- call (fun w => let '(ok, out, w') :=
                  PlatformInterface_getOpenFilename buf n filter default_ext w in
                ((ok, out), w'))
               (fun r => EvGetOpenFilename buf n filter default_ext (fst r) (snd r));
  set_this (set_m_path (snd r));;
  ret (fst r).

(** [m_resource->serialize(blob)] on a fresh [OutputBlob]; the result is
    [blob.getData()], and [blob.getPos()] is its length. *)
Definition serialize : M (list byte) :=
  do p <- get m_resource;
  do r <- get_resource id;
  call (fun w => (ControllerResource_serialize r w, w)) (EvSerialize p r).

(** [m_resource->deserialize(blob, engine, allocator)]: works on the object in
    place. *)
Definition deserialize (data : list byte) (len : int) : M bool :=
  do p <- get m_resource;
  do r <- get_resource id;
  do res <- call (fun w => let '(ok, r', w') :=
                    ControllerResource_deserialize r data len w in
                  ((ok, r'), w'))
                 (fun res => EvDeserialize p data len (fst res) (snd res));
  set_resource (fun _ => snd res);;
  ret (fst res).

(** [LUMIX_DELETE(allocator, m_resource)] *)
Definition delete_m_resource : M unit :=
  do p <- get m_resource;
  do r <- get_resource id;
  call_ (ControllerResource_delete p r) (EvDelete p r).

(** The four lines that [AnimationEditor], [load] and [newController] share:
    [manager] and [anim_sys] are looked up, a [ControllerResource] is
    constructed and [m_resource] and [m_container] are pointed at it and at
    its root. *)
Definition new_m_resource : M unit :=
  do manager <- read (ResourceManager_get CONTROLLER_RESOURCE_TYPE);
  do anim_sys <- read (PluginManager_getPlugin "animation");
  do res <- call (fun w => let '(p, r, w') :=
                    ControllerResource_new anim_sys manager w in
                  ((p, r), w'))
                 (fun res => EvNew anim_sys manager (fst res) (snd res));
  set_resource (fun _ => snd res);;
  set_this (set_m_resource (fst res));;
  do root <- get_resource getRoot;
  set_this (set_m_container root).

End Primitives.

(** ** The member functions *)

Section Members.

Context {E : Engine} {W : Type} {H : Host W}.

Local Abbreviation M := (M W).

(** *** Event types *)

(** [m_event_types.emplace()] leaves a default-constructed [EventType]. *)
Definition EventType_default : EventType := mkEventType 0 EmptyString 0 NoEditor.

Definition set_type (t : u32) (e : EventType) :=
  mkEventType t (label e) (size e) (editor e).

(** [createEventType(type)]; the reference it returns is the index of the new
    element. *)
Definition createEventType (ty : string) : M nat :=
  do l <- get m_event_types;
  let event_type := set_type (crc32 ty) EventType_default in
  set_this (set_m_event_types (Array.push event_type l));;
  ret (length l).

Definition getEventTypesCount (e : AnimationEditor) : int :=
  Array.size (m_event_types e).

Definition getEventTypeByIdx (e : AnimationEditor) (idx : int) : option EventType :=
  if idx <? 0 then None else Array.get idx (m_event_types e).

(** The range-for of [getEventType]: the index of the first element whose
    [type] is the one asked for. *)
Fixpoint getEventType_loop (l : list EventType) (ty : u32) (i : nat) : option nat :=
  match l with
  | [] => None
  | e :: l' => if type e =? ty then Some i else getEventType_loop l' ty (S i)
  end.

(** [getEventType(type)]: the reference returned, as an index into
    [m_event_types]; [None] stands for [m_event_types[0]] of an empty array. *)
Definition getEventType (e : AnimationEditor) (ty : u32) : option nat :=
  match getEventType_loop (m_event_types e) ty 0 with
  | Some i => Some i
  | None => match m_event_types e with
            | [] => None
            | _ :: _ => Some 0%nat
            end
  end.

(** *** Construction *)

(** What the initializer list and the assignment of the empty string to
    [m_path] leave before the resource is created. *)
Definition AnimationEditor_fields : AnimationEditor :=
  mkAnimationEditor false false
    (mkImVec2 (f32_of_Z 0) (f32_of_Z 0)) nullptr nullptr EmptyString [].

(** [AnimationEditor::AnimationEditor(app)]; the two actions are bound to
    [toggleEditorOpened]/[isEditorOpened] and
    [toggleInputsOpened]/[isInputsOpened]. *)
Definition AnimationEditor_ctor : M unit :=
  call_ (StudioApp_addWindowAction "Animation Editor" "animation_editor")
        (EvAddWindowAction "Animation Editor" "animation_editor");;
  call_ (StudioApp_addWindowAction "Animation Inputs" "animation_inputs")
        (EvAddWindowAction "Animation Inputs" "animation_inputs");;
  new_m_resource;;
  do idx <- createEventType "set_input";
  do l <- get m_event_types;
  set_this (set_m_event_types
    (alter (fun e => mkEventType (type e) "Set Input" sizeof_SetInputEvent onSetInputGUI)
       idx l)).

(** The state a constructor call starts from: no resource object yet. *)
Definition pre_construction (w : W) : Sys W :=
  mkSys AnimationEditor_fields (mkControllerResource nullptr [] [] []) w [].

Definition construct (w : W) : Sys W := exec AnimationEditor_ctor (pre_construction w).

(** [AnimationEditor::~AnimationEditor()] *)
Definition AnimationEditor_dtor : M unit := delete_m_resource.

(** *** One-line members *)

Definition getName : string := "animation_editor".

Definition isEditorOpened (e : AnimationEditor) : bool := m_editor_opened e.

Definition isInputsOpened (e : AnimationEditor) : bool := m_inputs_opened e.

Definition setContainer (container : ptr) : M unit :=
  set_this (set_m_container container).

Definition toggleEditorOpened : M unit :=
  do b <- get m_editor_opened; set_this (set_m_editor_opened (negb b)).

Definition toggleInputsOpened : M unit :=
  do b <- get m_inputs_opened; set_this (set_m_inputs_opened (negb b)).

(** *** Saving *)

Definition save : M unit :=
  do cancelled <-
    and_then (do p <- get m_path; ret (cstr_empty p))
             (do ok <- getSaveFilename_m_path
                         ("Animation controllers" +:+ nul ("*.act" +:+ nul EmptyString))
                         EmptyString;
              ret (negb ok));
  if cancelled then ret tt else
  do blob <- serialize;
  do path <- get m_path;
  call (OsFile_open path CREATE_AND_WRITE) (EvFileOpen path CREATE_AND_WRITE);;
  call (OsFile_write blob (Array.size blob)) (EvFileWrite blob (Array.size blob));;
  call_ OsFile_close EvFileClose.

Definition saveAs : M unit :=
  do ok <- getSaveFilename_m_path
             ("Animation controllers" +:+ nul ("*.act" +:+ nul EmptyString))
             EmptyString;
  if negb ok then ret tt else
  save.

(** *** Loading *)

Definition load : M unit :=
  do path <- get m_path;
  call (OsFile_open path OPEN_AND_READ) (EvFileOpen path OPEN_AND_READ);;
  do sz <- call (fun w => (OsFile_size w, w)) EvFileSize;
  let n := int_of_size_t sz in
  do rd <- call (fun w => let '(ok, data, w') := OsFile_read n w in ((ok, data), w'))
                (fun rd => EvFileRead n (fst rd) (snd rd));
  let data := snd rd in
  do ok <- deserialize data n;
  (if ok then
     do root <- get_resource getRoot;
     set_this (set_m_container root)
   else
     delete_m_resource;;
     new_m_resource);;
  call_ OsFile_close EvFileClose.

Definition loadFromEntity : M unit :=
  do entities <- read WorldEditor_getSelectedEntities;
  match entities with
  | [] => ret tt
  | e0 :: _ =>
      do ctrl <- read (AnimationScene_getComponent ANIMABLE_HASH e0 CONTROLLER_TYPE);
      if negb (isValid ctrl) then ret tt else
      do src <- read (AnimationScene_getControllerSource ANIMABLE_HASH ctrl);
      set_this (set_m_path (copyString MAX_PATH_LENGTH src));;
      load
  end.

Definition loadFromFile : M unit :=
  do ok <- getOpenFilename_m_path
             ("Animation controllers" +:+ nul ("*.act" +:+ nul EmptyString))
             EmptyString;
  if negb ok then ret tt else
  load.

Definition newController : M unit :=
  delete_m_resource;;
  new_m_resource;;
  set_this (set_m_path EmptyString).

(** *** The graph canvas *)

Definition drawGraph : M unit :=
  imgui (BeginChild "canvas" (mkImVec2 (f32_of_Z 0) (f32_of_Z 0)) true);;
  do panning <-
    and_then (imgui IsWindowHovered)
      (and_then (do a <- imgui IsAnyItemActive; ret (negb a))
                (imgui (IsMouseDragging 2 (f32_of_Z 0))));
  when panning
    (do off <- get m_offset;
     do delta <- call (fun w => (ImGui_GetIO_MouseDelta w, w)) EvMouseDelta;
     set_this (set_m_offset (ImVec2_add off delta)));;
  do entities <- read WorldEditor_getSelectedEntities;
  do runtime <-
    match entities with
    | [] => ret nullptr
    | e0 :: _ =>
        do ctrl <- read (AnimationScene_getComponent ANIMABLE_HASH e0 CONTROLLER_TYPE);
        if isValid ctrl
        then read (AnimationScene_getControllerRoot ANIMABLE_HASH ctrl)
        else ret nullptr
    end;
  do draw <- read ImGui_GetWindowDrawList;
  do cursor <- read ImGui_GetCursorScreenPos;
  do off <- get m_offset;
  let canvas_screen_pos := ImVec2_add cursor off in
  do container <- get m_container;
  call_ (Container_drawInside container draw canvas_screen_pos)
        (EvDrawInside container draw canvas_screen_pos);;
  when (negb (runtime =? nullptr))
    (do root <- get_resource getRoot;
     do container <- get m_container;
     call_ (Component_debugInside root draw canvas_screen_pos runtime container)
           (EvDebugInside root draw canvas_screen_pos runtime container));;
  imgui_ EndChild.

(** *** The menu bar *)

Definition menuGUI : M unit :=
  do bar <- imgui BeginMenuBar;
  when bar
    (do file <- imgui (BeginMenu "File");
     when file
       (do c <- imgui (MenuItem "New" None false true); when c newController;;
        do c <- imgui (MenuItem "Save" None false true); when c save;;
        do c <- imgui (MenuItem "Save As" None false true); when c saveAs;;
        do c <- imgui (MenuItem "Open" None false true); when c loadFromFile;;
        do c <- imgui (MenuItem "Open from selected entity" None false true);
        when c loadFromEntity;;
        imgui_ EndMenu);;
     do container <- get m_container;
     do parent <- read (Container_getParent container);
     do up <- imgui (MenuItem "Go up" None false (negb (parent =? nullptr)));
     when up
       (do container <- get m_container;
        do parent <- read (Container_getParent container);
        set_this (set_m_container parent));;
     imgui_ EndMenuBar).

Definition editorGUI : M unit :=
  do opened <- get m_editor_opened;
  do r <- call (fun w => let '(r, o, w') :=
                  ImGui_BeginDock "Animation Editor" opened ImGuiWindowFlags_MenuBar w in
                ((r, o), w'))
               (fun r => EvBeginDock "Animation Editor" opened ImGuiWindowFlags_MenuBar
                           (fst r) (snd r));
  set_this (set_m_editor_opened (snd r));;
  when (fst r)
    (menuGUI;;
     imgui_ (Columns 2);;
     drawGraph;;
     imgui_ NextColumn;;
     imgui_ (Text "Properties");;
     do container <- get m_container;
     do sel <- read (Container_getSelectedComponent container);
     when (negb (sel =? nullptr))
       (do container <- get m_container;
        do sel <- read (Container_getSelectedComponent container);
        call_ (Component_onGUI sel) (EvOnGUI sel));;
     imgui_ (Columns 1));;
  imgui_ EndDock.

(** *** The animation slots table *)

(** A [for (int i = from; i < bound; ++i) body] whose body may change [i]
    and the bound; [body] returns the [i] it ends with. [fuel] bounds the
    number of iterations. *)
Fixpoint for_loop (fuel : nat) (i : int) (bound : M int) (body : int -> M int)
  : M unit :=
  match fuel with
  | O => ret tt
  | S fuel' =>
      do n <- bound;
      if i <? n
      then do i' <- body i; for_loop fuel' (i' + 1) bound body
      else ret tt
  end.

(** [slots[i]] read through the reference [slot]. *)
Definition slot_at (i : int) : M string :=
  do slots <- get_resource getAnimationSlots;
  ret (default EmptyString (Array.get i slots)).

(** Lines 455-471: what happens when Enter is pressed in the name field of
    row [i] and the field holds [slot_cstr]. *)
Definition rename_slot (i : int) (slot_cstr : string) : M unit :=
  do slots <- get_resource getAnimationSlots;
  let exists_ := 0 <=? Array.find (fun val => String.eqb val slot_cstr) slots in
  if exists_ then
    let msg := "Slot " +:+ slot_cstr +:+ " already exists." in
    call_ (log_error "Animation" msg) (EvLogError "Animation" msg)
  else
    do slot <- slot_at i;
    let old_hash := crc32 slot in
    let new_hash := crc32 slot_cstr in
    do engine_anim_set <- get_resource m_animation_set;
    set_resource (set_m_animation_set
      (List.map (fun entry =>
                   if hash entry =? old_hash
                   then mkAnimSetEntry (set entry) new_hash (animation entry)
                   else entry)
                engine_anim_set));;
    do slots <- get_resource getAnimationSlots;
    set_resource (set_getAnimationSlots (Array.assign i slot_cstr slots)).

(** The search for the entry of set [j] and slot hash [slot_hash]; the pointer
    [entry] is the index found. *)
Fixpoint find_entry (l : list AnimSetEntry) (j : int) (slot_hash : u32) (k : nat)
  : option nat :=
  match l with
  | [] => None
  | e :: l' =>
      if (set e =? j) && (hash e =? slot_hash) then Some k
      else find_entry l' j slot_hash (S k)
  end.

(** Lines 485-516: the cell of row [slot_hash] in column [j]. *)
Definition slot_cell (slot_hash : u32) (j : int) : M int :=
  do engine_anim_set <- get_resource m_animation_set;
  let entry := find_entry engine_anim_set j slot_hash 0 in
  let entry_animation :=
    match entry with
    | Some k => default nullptr (animation <$> engine_anim_set !! k)
    | None => nullptr
    end in
  do width <- read ImGui_GetColumnWidth;
  imgui_ (PushItemWidth width);;
  do path <- (if negb (entry_animation =? nullptr)
              then read (Animation_getPath entry_animation)
              else ret EmptyString);
  let tmp := copyString MAX_PATH_LENGTH path in
  imgui_ (PushID_int j);;
  let n := Z.of_nat MAX_PATH_LENGTH in
  do r <- call (fun w => let '(r, out, w') :=
                  AssetBrowser_resourceInput EmptyString "##res" tmp n ANIMATION_TYPE w in
                ((r, out), w'))
               (fun r => EvResourceInput EmptyString "##res" tmp n ANIMATION_TYPE
                           (fst r) (snd r));
  when (fst r)
    (when (negb (entry_animation =? nullptr))
       (call_ (ResourceManager_unload entry_animation) (EvUnload entry_animation));;
     do manager <- read (ResourceManager_get ANIMATION_TYPE);
     do anim <- call (ResourceManager_load manager (snd r)) (EvLoad manager (snd r));
     do engine_anim_set <- get_resource m_animation_set;
     match entry with
     | Some k =>
         set_resource (set_m_animation_set
           (alter (fun e => mkAnimSetEntry (set e) (hash e) anim) k engine_anim_set))
     | None =>
         set_resource (set_m_animation_set
           (Array.push (mkAnimSetEntry j slot_hash anim) engine_anim_set))
     end);;
  imgui_ PopID;;
  imgui_ PopItemWidth;;
  imgui_ NextColumn;;
  ret j.

(** Lines 447-518: row [i] of the table. *)
Definition slot_row (i : int) : M int :=
  do slot <- slot_at i;
  imgui_ (PushID_int i);;
  let slot_cstr := copyString SLOT_CSTR_LENGTH slot in
  imgui_ (PushItemWidth (f32_of_Z (-20)));;
  let n := Z.of_nat SLOT_CSTR_LENGTH in
  do r <- call (fun w => let '(r, out, w') :=
                  ImGui_InputText "##name" slot_cstr n
                    ImGuiInputTextFlags_EnterReturnsTrue w in
                ((r, out), w'))
               (fun r => EvInputText "##name" slot_cstr n
                           ImGuiInputTextFlags_EnterReturnsTrue (fst r) (snd r));
  when (fst r) (rename_slot i (snd r));;
  imgui_ PopItemWidth;;
  imgui_ SameLine;;
  do slot <- slot_at i;
  let slot_hash := crc32 slot in
  do erase <- imgui (Button "x");
  do i' <-
    (if erase then
       do slots <- get_resource getAnimationSlots;
       set_resource (set_getAnimationSlots (Array.erase i slots));;
       do engine_anim_set <- get_resource m_animation_set;
       set_resource (set_m_animation_set
         (Array.eraseItems (fun val => hash val =? slot_hash) engine_anim_set));;
       ret (i - 1)
     else ret i);
  imgui_ NextColumn;;
  do sets <- get_resource m_sets_names;
  for_loop (length sets) 0 (get_resource (fun r => Array.size (m_sets_names r)))
    (slot_cell slot_hash);;
  imgui_ PopID;;
  ret i'.

(** Lines 436-441: the header cell of set [j]. *)
Definition set_header (j : int) : M int :=
  imgui_ (PushID_int j);;
  imgui_ (PushItemWidth (f32_of_Z (-1)));;
  do sets <- get_resource m_sets_names;
  let buf := default EmptyString (Array.get j sets) in
  let n := Z.of_nat SET_NAME_LENGTH in
  do r <- call (fun w => let '(r, out, w') :=
                  ImGui_InputText EmptyString buf n ImGuiInputTextFlags_None w in
                ((r, out), w'))
               (fun r => EvInputText EmptyString buf n ImGuiInputTextFlags_None
                           (fst r) (snd r));
  set_resource (set_m_sets_names (Array.assign j (snd r) sets));;
  imgui_ PopItemWidth;;
  imgui_ PopID;;
  imgui_ NextColumn;;
  ret j.

(** Lines 524-534: the button "Add slot (row)" was pressed. *)
Definition add_slot : M unit :=
  do slots <- get_resource getAnimationSlots;
  let exists_ := 0 <=? Array.find (fun val => String.eqb val EmptyString) slots in
  if exists_ then
    let msg := "Slot with empty name already exists. Please rename it and then you can create a new slot." in
    call_ (log_error "Animation" msg) (EvLogError "Animation" msg)
  else
    set_resource (set_getAnimationSlots (Array.push EmptyString slots)).

(** Lines 538-539: the button "Add set (column)" was pressed. *)
Definition add_set : M unit :=
  do sets <- get_resource m_sets_names;
  set_resource (set_m_sets_names (Array.push "new set" sets)).

Definition animationSlotsGUI : M unit :=
  do open <- imgui (CollapsingHeader "Animation slots");
  if negb open then ret tt else
  imgui_ (PushID_str "anim_slots");;
  imgui_ (PushItemWidth (f32_of_Z (-1)));;
  do sets <- get_resource m_sets_names;
  imgui_ (Columns (Array.size sets + 1));;
  imgui_ NextColumn;;
  imgui_ (PushID_str "header");;
  for_loop (length sets) 0 (get_resource (fun r => Array.size (m_sets_names r)))
    set_header;;
  imgui_ PopID;;
  imgui_ Separator;;
  do slots <- get_resource getAnimationSlots;
  for_loop (length slots) 0 (get_resource (fun r => Array.size (getAnimationSlots r)))
    slot_row;;
  imgui_ (Columns 1);;
  do add_row <- imgui (Button "Add slot (row)");
  when add_row add_slot;;
  do add_column <- imgui (Button "Add set (column)");
  when add_column add_set;;
  imgui_ PopItemWidth;;
  imgui_ PopID.

End Members.

(** ** A small world to run the editor in *)

Module Demo.

(** CRC-32 (reflected polynomial EDB88320), bit by bit. *)
Fixpoint crc_bits (n : nat) (c : Z) : Z :=
  match n with
  | O => c
  | S n' =>
      crc_bits n' (Z.lxor (Z.shiftr c 1) (if Z.testbit c 0 then 0xEDB88320 else 0))
  end.

Fixpoint crc_string (s : string) (c : Z) : Z :=
  match s with
  | EmptyString => c
  | String a s' => crc_string s' (crc_bits 8 (Z.lxor c (Z.of_nat (nat_of_ascii a))))
  end.

Definition crc32 (s : string) : u32 := Z.lxor (crc_string s 0xFFFFFFFF) 0xFFFFFFFF.

(** [crc32], [MAX_PATH_LENGTH], [sizeof(Anim::SetInputEvent)], [isValid] and
    [lengthOf(sets[j].data)], in this order. *)
Definition engine : Engine :=
  Build_Engine crc32 260 8 (fun h => 0 <=? h) 32.

Record World := mkWorld {
  (** the file system, the paths that cannot be written, and the path the one
      [OsFile] has open *)
  files : list (string * list byte);
  readonly : list string;
  opened : option string;
  (** the answer to the next file dialog: a path, or a cancellation *)
  dialog : option string;
  (** labels of the menu items and buttons pressed in this frame *)
  clicked : list string;
  (** text confirmed with Enter in a name field *)
  typed : option string;
  hovered : bool;
  item_active : bool;
  dragging : option int;
  mouse_delta : ImVec2;
  (** selected entities and the controller source of each *)
  selected : list Entity;
  sources : list (Entity * string);
  (** next address the allocator hands out *)
  next : ptr;
  errors : list string
}.

Definition lookup_file (path : string) (fs : list (string * list byte))
  : option (list byte) :=
  snd <$> List.find (fun f => String.eqb (fst f) path) fs.

Definition with_fs (fs : list (string * list byte)) (o : option string) (w : World) :=
  mkWorld fs (readonly w) o (dialog w) (clicked w) (typed w) (hovered w)
    (item_active w) (dragging w) (mouse_delta w) (selected w) (sources w) (next w)
    (errors w).

Definition with_next (n : ptr) (w : World) :=
  mkWorld (files w) (readonly w) (opened w) (dialog w) (clicked w) (typed w)
    (hovered w) (item_active w) (dragging w) (mouse_delta w) (selected w)
    (sources w) n (errors w).

Definition with_errors (l : list string) (w : World) :=
  mkWorld (files w) (readonly w) (opened w) (dialog w) (clicked w) (typed w)
    (hovered w) (item_active w) (dragging w) (mouse_delta w) (selected w)
    (sources w) (next w) l.

Definition current (w : World) : list byte :=
  match opened w with
  | Some p => default [] (lookup_file p (files w))
  | None => []
  end.

Definition answer (q : ImGuiQuery) (w : World) : bool :=
  match q with
  | MenuItem l _ _ enabled =>
      enabled && bool_decide (l ∈ clicked w)
  | Button l => bool_decide (l ∈ clicked w)
  | IsWindowHovered => hovered w
  | IsAnyItemActive => item_active w
  | IsMouseDragging b _ => bool_decide (dragging w = Some b)
  | _ => true
  end.

(** A controller file is accepted when it starts with the byte ["L"]. *)
Definition accepts (data : list byte) : bool :=
  match data with
  | x4c :: _ => true
  | _ => false
  end.

Definition ask_path (w : World) : bool * string * World :=
  match dialog w with
  | Some p => (true, p, w)
  | None => (false, EmptyString, w)
  end.

Definition host : Host World := {|
  PlatformInterface_getSaveFilename := fun _ _ _ _ => ask_path;
  PlatformInterface_getOpenFilename := fun _ _ _ _ => ask_path;
  OsFile_open := fun path mode w =>
    match mode with
    | OPEN_AND_READ =>
        match lookup_file path (files w) with
        | Some _ => (true, with_fs (files w) (Some path) w)
        | None => (false, w)
        end
    | CREATE_AND_WRITE =>
        if bool_decide (path ∈ readonly w) then (false, w)
        else (true, with_fs ((path, []) :: files w) (Some path) w)
    end;
  OsFile_write := fun data _ w =>
    match opened w with
    | Some p => (true, with_fs ((p, current w ++ data) :: files w) (Some p) w)
    | None => (false, w)
    end;
  OsFile_size := fun w => Z.of_nat (length (current w));
  OsFile_read := fun n w =>
    match opened w with
    | Some _ => (true, take (Z.to_nat n) (current w), w)
    | None => (false, [], w)
    end;
  OsFile_close := fun w => with_fs (files w) None w;
  ControllerResource_serialize := fun r _ => [x4c];
  ControllerResource_deserialize := fun r data _ w => (accepts data, r, w);
  ControllerResource_delete := fun _ _ w => w;
  ControllerResource_new := fun _ _ w =>
    (next w, mkControllerResource (next w + 1) [] [] [], with_next (next w + 2) w);
  ResourceManager_get := fun _ _ => 1;
  PluginManager_getPlugin := fun _ _ => 2;
  ResourceManager_load := fun _ _ w => (nullptr, w);
  ResourceManager_unload := fun _ w => w;
  Animation_getPath := fun _ _ => EmptyString;
  log_error := fun _ msg w => with_errors (errors w ++ [msg]) w;
  ImGui := fun q w => (answer q w, w);
  ImGui_cmd := fun _ w => w;
  ImGui_BeginDock := fun _ o _ w => (o, o, w);
  ImGui_InputText := fun l buf _ _ w =>
    match typed w with
    | Some t => if String.eqb l "##name" then (true, t, w) else (false, buf, w)
    | None => (false, buf, w)
    end;
  ImGui_GetIO_MouseDelta := mouse_delta;
  ImGui_GetCursorScreenPos := fun _ => mkImVec2 (f32_of_Z 0) (f32_of_Z 0);
  ImGui_GetWindowDrawList := fun _ => 3;
  ImGui_GetColumnWidth := fun _ => f32_of_Z 100;
  AssetBrowser_resourceInput := fun _ _ buf _ _ w => (false, buf, w);
  WorldEditor_getSelectedEntities := selected;
  AnimationScene_getComponent := fun _ e _ w =>
    if bool_decide (e ∈ (fst <$> sources w)) then e else INVALID_COMPONENT;
  AnimationScene_getControllerSource := fun _ h w =>
    default EmptyString (snd <$> List.find (fun p => fst p =? h) (sources w));
  AnimationScene_getControllerRoot := fun _ _ _ => nullptr;
  Container_getParent := fun _ _ => nullptr;
  Container_getSelectedComponent := fun _ _ => nullptr;
  Container_drawInside := fun _ _ _ w => w;
  Component_debugInside := fun _ _ _ _ _ w => w;
  Component_onGUI := fun _ w => w;
  StudioApp_addWindowAction := fun _ _ w => w
|}.

(** Nothing on disk, nothing selected, nothing pressed. *)
Definition idle : World :=
  mkWorld [] [] None None [] None false false None
    (mkImVec2 (f32_of_Z 0) (f32_of_Z 0)) [] [] 100 [].

Definition with_dialog (d : option string) (w : World) :=
  mkWorld (files w) (readonly w) (opened w) d (clicked w) (typed w) (hovered w)
    (item_active w) (dragging w) (mouse_delta w) (selected w) (sources w) (next w)
    (errors w).

Definition with_readonly (l : list string) (w : World) :=
  mkWorld (files w) l (opened w) (dialog w) (clicked w) (typed w) (hovered w)
    (item_active w) (dragging w) (mouse_delta w) (selected w) (sources w) (next w)
    (errors w).

(** The same editor with [m_path] set to [p]. *)
Definition at_path (p : string) (s : Sys World) : Sys World :=
  mkSys (set_m_path p (this s)) (resource s) (world s) (trace s).

Definition with_clicked (c : list string) (w : World) :=
  mkWorld (files w) (readonly w) (opened w) (dialog w) c (typed w) (hovered w)
    (item_active w) (dragging w) (mouse_delta w) (selected w) (sources w) (next w)
    (errors w).

Definition with_typed (t : option string) (w : World) :=
  mkWorld (files w) (readonly w) (opened w) (dialog w) (clicked w) t (hovered w)
    (item_active w) (dragging w) (mouse_delta w) (selected w) (sources w) (next w)
    (errors w).

Definition with_selected (l : list Entity) (src : list (Entity * string)) (w : World) :=
  mkWorld (files w) (readonly w) (opened w) (dialog w) (clicked w) (typed w)
    (hovered w) (item_active w) (dragging w) (mouse_delta w) l src (next w)
    (errors w).

Definition with_files (fs : list (string * list byte)) (w : World) :=
  mkWorld fs (readonly w) (opened w) (dialog w) (clicked w) (typed w)
    (hovered w) (item_active w) (dragging w) (mouse_delta w) (selected w)
    (sources w) (next w) (errors w).


(** The editor right after construction in [w]. *)
Definition start (w : World) : Sys World :=
  @construct engine World host w.

(** The same editor holding a resource with two slots and three entries. *)
Definition with_slots (s : Sys World) : Sys World :=
  mkSys (this s)
    (mkControllerResource (getRoot (resource s)) ["idle"; "walk"]
       [ mkAnimSetEntry 0 (crc32 "idle") 7;
         mkAnimSetEntry 0 (crc32 "walk") 8;
         mkAnimSetEntry 1 (crc32 "walk") 9 ]
       ["default"; "injured"])
    (world s) (trace s).

End Demo.

(** ** Vocabulary of the properties *)

Section Vocabulary.

Context {E : Engine} {W : Type} {H : Host W}.

Local Abbreviation M := (M W).

(** The entry points of the editor: the public members, the per-frame GUI
    functions and the commands behind the menu. *)
Inductive Operation :=
| OpSetContainer (container : ptr)
| OpToggleEditorOpened
| OpToggleInputsOpened
| OpCreateEventType (ty : string)
| OpEditorGUI
| OpMenuGUI
| OpDrawGraph
| OpAnimationSlotsGUI
| OpNewController
| OpSave
| OpSaveAs
| OpLoad
| OpLoadFromFile
| OpLoadFromEntity.

Definition run (op : Operation) : M unit :=
  match op with
  | OpSetContainer c => setContainer c
  | OpToggleEditorOpened => toggleEditorOpened
  | OpToggleInputsOpened => toggleInputsOpened
  | OpCreateEventType ty => createEventType ty;; ret tt
  | OpEditorGUI => editorGUI
  | OpMenuGUI => menuGUI
  | OpDrawGraph => drawGraph
  | OpAnimationSlotsGUI => animationSlotsGUI
  | OpNewController => newController
  | OpSave => save
  | OpSaveAs => saveAs
  | OpLoad => load
  | OpLoadFromFile => loadFromFile
  | OpLoadFromEntity => loadFromEntity
  end.

(** The states an editor can be in: it is constructed, then operations run;
    between two of them the rest of the engine may change the world, the
    object behind [m_resource], and an event type through the reference
    [createEventType], [getEventTypeByIdx] and [getEventType] hand out. *)
Inductive reachable : Sys W -> Prop :=
| reachable_construct (w : W) : reachable (construct w)
| reachable_run (s : Sys W) (op : Operation) :
    reachable s -> reachable (exec (run op) s)
| reachable_world (s : Sys W) (r : ControllerResource) (w : W) :
    reachable s -> reachable (mkSys (this s) r w (trace s))
| reachable_event_type (s : Sys W) (idx : nat) (e : EventType) :
    reachable s ->
    reachable (mkSys (set_m_event_types (<[idx := e]> (m_event_types (this s))) (this s))
                 (resource s) (world s) (trace s)).

(** [i] is the first index of [l] whose event type has tag [ty]. *)
Definition first_with_type (l : list EventType) (ty : u32) (i : nat) : Prop :=
  (exists e, l !! i = Some e /\ type e = ty) /\
  forall j e, (j < i)%nat -> l !! j = Some e -> type e <> ty.

Definition no_event_type (l : list EventType) (ty : u32) : Prop :=
  forall e, e ∈ l -> type e <> ty.

(** Number of slots with an empty name. *)
Definition empty_names (slots : list string) : nat :=
  length (List.filter (fun val => String.eqb val EmptyString) slots).

(** The rehashing a successful rename applies to every entry. *)
Definition rehash (old_hash new_hash : u32) (entry : AnimSetEntry) : AnimSetEntry :=
  if hash entry =? old_hash
  then mkAnimSetEntry (set entry) new_hash (animation entry)
  else entry.

(** The filter the file dialogs are to be opened with. *)
Definition ACT_FILTER : string :=
  "Animation controllers" +:+ nul ("*.act" +:+ nul EmptyString).

Definition dialog_filter (e : Event) : option string :=
  match e with
  | EvGetSaveFilename _ _ filter _ _ _ => Some filter
  | EvGetOpenFilename _ _ filter _ _ _ => Some filter
  | _ => None
  end.

Definition is_log (e : Event) : bool :=
  match e with
  | EvLogError _ _ => true
  | _ => false
  end.

(** The three answers under which [drawGraph] pans the canvas. *)
Definition panning (evs : list Event) : Prop :=
  EvImGui IsWindowHovered true ∈ evs /\
  EvImGui IsAnyItemActive false ∈ evs /\
  EvImGui (IsMouseDragging 2 (S754_zero false)) true ∈ evs.


(** [s'] has the editor and the resource of [s], and a trace extended by
    events that satisfy [P]. *)
Definition quietly (P : Event -> Prop) (s s' : Sys W) : Prop :=
  this s' = this s /\ resource s' = resource s /\
  exists evs, trace s' = trace s ++ evs /\ Forall P evs.

(** The File menu as the specification lists it: the commands in order, each
    with the operation it stands for. *)
Definition File_menu : list (string * M unit) :=
  [ ("New", newController);
    ("Save", save);
    ("Save As", saveAs);
    ("Open", loadFromFile);
    ("Open from selected entity", loadFromEntity) ].

(** Offering a list of commands: each one is shown as an enabled, unchecked
    item without shortcut, and runs its operation when it is clicked; [after]
    is what follows the last one. *)
Fixpoint offer (items : list (string * M unit)) (after : M unit) : M unit :=
  match items with
  | [] => after
  | (l, op) :: rest =>
      do c <- imgui (MenuItem l None false true);
      when c op;;
      offer rest after
  end.

(** A menu bar with a File menu that offers [items], followed by [rest]. *)
Definition menu_bar_with_File (items : list (string * M unit)) (rest : M unit)
  : M unit :=
  do bar <- imgui BeginMenuBar;
  when bar
    (do file <- imgui (BeginMenu "File");
     when file (offer items (imgui_ EndMenu));;
     rest).

(** Events that are neither a menu item nor the end of a menu. *)
Definition menu_quiet (e : Event) : Prop :=
  match e with
  | EvImGui (MenuItem _ _ _ _) _ => False
  | EvImGuiCmd EndMenu => False
  | _ => True
  end.

(** A file dialog, if [e] is one, was opened with [ACT_FILTER]. *)
Definition act_filtered (e : Event) : Prop :=
  match dialog_filter e with
  | Some filter => filter = ACT_FILTER
  | None => True
  end.

(** The labels of the menu items shown up to the end of the first menu. *)
Fixpoint menu_labels (evs : list Event) : list string :=
  match evs with
  | [] => []
  | EvImGuiCmd EndMenu :: _ => []
  | EvImGui (MenuItem l _ _ _) _ :: evs' => l :: menu_labels evs'
  | _ :: evs' => menu_labels evs'
  end.

(** [s'] extends the trace of [s] by events that all satisfy [P]. *)
Definition emitting (P : Event -> Prop) (s s' : Sys W) : Prop :=
  exists evs, trace s' = trace s ++ evs /\ Forall P evs.

(** [Q] relates the editor object before to the editor object after. *)
Definition keeping (Q : relation AnimationEditor) (s s' : Sys W) : Prop :=
  Q (this s) (this s').

(** [Q] relates the resource object before to the resource object after. *)
Definition keeping_resource (Q : relation ControllerResource) (s s' : Sys W) : Prop :=
  Q (resource s) (resource s').

(** The event types are only ever appended to. *)
Definition more_event_types (e e' : AnimationEditor) : Prop :=
  (length (m_event_types e) <= length (m_event_types e'))%nat.

(** The number of sets, and the slots, stay as they are. *)
Definition same_sets_size (r r' : ControllerResource) : Prop :=
  length (m_sets_names r') = length (m_sets_names r).

Definition same_slots (r r' : ControllerResource) : Prop :=
  getAnimationSlots r' = getAnimationSlots r.

(** [m] takes every state to one related to it by [R]. *)
Definition steps {A} (R : relation (Sys W)) (m : M A) : Prop :=
  forall s, R s (snd (m s)).

End Vocabulary.

Arguments steps {W A} R m.

(** ** Vocabulary of the properties of the remaining code *)

Section Vocabulary_more.

Context {E : Engine} {W : Type} {H : Host W}.

Local Abbreviation M := (M W).

(** *** The controller resource objects the editor creates and deletes *)

(** Follows the constructions and deletions of a trace.  [live] is the
    address of the one object that exists, if any.  The result is [None]
    when an object is constructed while another one exists, or when
    something is deleted that is not the object that exists. *)
Fixpoint alloc_run (live : option ptr) (evs : list Event) : option (option ptr) :=
  match evs with
  | [] => Some live
  | EvNew _ _ p _ :: evs' =>
      match live with
      | None => alloc_run (Some p) evs'
      | Some _ => None
      end
  | EvDelete p _ :: evs' =>
      match live with
      | Some q => if p =? q then alloc_run None evs' else None
      | None => None
      end
  | _ :: evs' => alloc_run live evs'
  end.

Definition alloc_neutral (e : Event) : Prop :=
  match e with
  | EvNew _ _ _ _ => False
  | EvDelete _ _ => False
  | _ => True
  end.

(** From [s] to [s'] the object [m_resource] points to is the one that
    exists. *)
Definition owning (s s' : Sys W) : Prop :=
  exists evs,
    trace s' = trace s ++ evs /\
    alloc_run (Some (m_resource (this s))) evs = Some (Some (m_resource (this s'))).

(** *** Begin and End, Push and Pop *)

(** What ImGui keeps open until the matching call. *)
Inductive Frame := FDock | FMenuBar | FMenu | FChild | FID | FItemWidth.

Definition pop (f : Frame) (st : list Frame) : option (list Frame) :=
  match st, f with
  | FDock :: st', FDock => Some st'
  | FMenuBar :: st', FMenuBar => Some st'
  | FMenu :: st', FMenu => Some st'
  | FChild :: st', FChild => Some st'
  | FID :: st', FID => Some st'
  | FItemWidth :: st', FItemWidth => Some st'
  | _, _ => None
  end.

(** The effect of one call on what is open.  [EndDock] and [EndChild] are
    due whatever [BeginDock] and [BeginChild] returned; [EndMenuBar] and
    [EndMenu] are due only after [BeginMenuBar] and [BeginMenu] returned
    true.  A closing call that does not match the innermost open frame has
    no result. *)
Definition step_frame (e : Event) (st : list Frame) : option (list Frame) :=
  match e with
  | EvBeginDock _ _ _ _ _ => Some (FDock :: st)
  | EvImGui BeginMenuBar r => Some (if r then FMenuBar :: st else st)
  | EvImGui (BeginMenu _) r => Some (if r then FMenu :: st else st)
  | EvImGui (BeginChild _ _ _) _ => Some (FChild :: st)
  | EvImGuiCmd (PushID_str _) => Some (FID :: st)
  | EvImGuiCmd (PushID_int _) => Some (FID :: st)
  | EvImGuiCmd (PushItemWidth _) => Some (FItemWidth :: st)
  | EvImGuiCmd EndDock => pop FDock st
  | EvImGuiCmd EndMenuBar => pop FMenuBar st
  | EvImGuiCmd EndMenu => pop FMenu st
  | EvImGuiCmd EndChild => pop FChild st
  | EvImGuiCmd PopID => pop FID st
  | EvImGuiCmd PopItemWidth => pop FItemWidth st
  | _ => Some st
  end.

Fixpoint check (evs : list Event) (st : list Frame) : option (list Frame) :=
  match evs with
  | [] => Some st
  | e :: evs' =>
      match step_frame e st with
      | Some st' => check evs' st'
      | None => None
      end
  end.

(** Started with [st] open, [m] leaves [post a] open when it returns [a]. *)
Definition brackets {A} (st : list Frame) (post : A -> list Frame) (m : M A) : Prop :=
  forall s, exists evs,
    trace (m s).2 = trace s ++ evs /\ check evs st = Some (post (m s).1).

End Vocabulary_more.

Arguments brackets {W A} st post m.



Definition is_dialog (e : Event) : bool :=
  match dialog_filter e with
  | Some _ => true
  | None => false
  end.

(** Slot names that are pairwise distinct stay so. *)
Definition distinct_names (r r' : ControllerResource) : Prop :=
  NoDup (getAnimationSlots r) -> NoDup (getAnimationSlots r').

(** The calls the slots table makes: the GUI library, the asset browser's
    resource field, the animation manager and the error log. *)
Definition table_event (e : Event) : Prop :=
  match e with
  | EvImGui _ _ | EvImGuiCmd _ | EvInputText _ _ _ _ _ _
  | EvResourceInput _ _ _ _ _ _ _ | EvUnload _ | EvLoad _ _ _ | EvLogError _ _ => True
  | _ => False
  end.

(** What a field answers while the user leaves it alone: a text field
    returns false with its text as it was, a resource field returns false. *)
Definition untouched (e : Event) : Prop :=
  match e with
  | EvInputText _ buf _ _ r out => r = false /\ out = buf
  | EvResourceInput _ _ _ _ _ r _ => r = false
  | _ => True
  end.

(** What a widget answers while the user leaves it alone: moreover a button
    is not pressed. *)
Definition idle (e : Event) : Prop :=
  untouched e /\
  match e with
  | EvImGui (Button _) r => r = false
  | _ => True
  end.

(** The resource is as it was when every call in between was answered as
    [P] says. *)
Definition unchanged_if {W} (P : Event -> Prop) (s s' : Sys W) : Prop :=
  exists evs, trace s' = trace s ++ evs /\
    (Forall P evs -> resource s' = resource s).

Definition same_root (r r' : ControllerResource) : Prop := getRoot r' = getRoot r.

(** The two window flags and the event types are as they were. *)
Definition same_windows (e e' : AnimationEditor) : Prop :=
  m_editor_opened e' = m_editor_opened e /\
  m_inputs_opened e' = m_inputs_opened e /\
  m_event_types e' = m_event_types e.


(** [m_container] is the root of the resource. *)
Definition at_root {W} (s : Sys W) : Prop :=
  m_container (this s) = getRoot (resource s).

Definition stays_at_root {W} (s s' : Sys W) : Prop := at_root s -> at_root s'.

(** The operations that move [m_container] through the graph: [setContainer],
    and the two that show the "Go up" item. *)
Definition navigates (op : Operation) : bool :=
  match op with
  | OpSetContainer _ | OpMenuGUI | OpEditorGUI => true
  | _ => false
  end.

(** * Properties *)

(** ** Reasoning about runs *)

Section Steps.

Context {W : Type}.

Context (R : relation (Sys W)) `{!PreOrder R}.

Lemma steps_ret {A} (a : A) : steps R (ret a).
Proof. intros s. reflexivity. Qed.

Lemma steps_bind {A B} (m : M W A) (k : A -> M W B) :
  steps R m -> (forall a, steps R (k a)) -> steps R (bind m k).
Proof.
  intros Hm Hk s. unfold bind. specialize (Hm s).
  destruct (m s) as [a s1]. simpl in Hm. etransitivity; [exact Hm | apply Hk].
Qed.

Lemma steps_when (b : bool) (m : M W unit) : steps R m -> steps R (when b m).
Proof. destruct b; simpl; auto using steps_ret. Qed.

Lemma steps_and_then (a b : M W bool) : steps R a -> steps R b -> steps R (and_then a b).
Proof.
  intros Ha Hb. apply steps_bind; [exact Ha |]. intros []; auto using steps_ret.
Qed.

Lemma steps_get {A} (f : AnimationEditor -> A) : steps R (get f).
Proof. intros s. reflexivity. Qed.

Lemma steps_get_resource {A} (f : ControllerResource -> A) : steps R (get_resource f).
Proof. intros s. reflexivity. Qed.

Lemma steps_read {A} (f : W -> A) : steps R (read f).
Proof. intros s. reflexivity. Qed.

Lemma steps_for_loop (fuel : nat) (i : int) (bound : M W int) (body : int -> M W int) :
  steps R bound -> (forall j, steps R (body j)) -> steps R (for_loop fuel i bound body).
Proof.
  intros Hb Hbody. revert i. induction fuel as [|fuel IH]; intros i; simpl.
  - apply steps_ret.
  - apply steps_bind; [exact Hb |]. intros n.
    destruct (i <? n); [| apply steps_ret].
    apply steps_bind; [apply Hbody |]. intros i'. apply IH.
Qed.

End Steps.

Create HintDb members.

#[local] Hint Unfold run setContainer toggleEditorOpened toggleInputsOpened
  editorGUI menuGUI drawGraph animationSlotsGUI newController
  save saveAs load loadFromFile loadFromEntity getSaveFilename_m_path
  getOpenFilename_m_path serialize deserialize delete_m_resource new_m_resource
  slot_row slot_cell slot_at set_header rename_slot add_slot add_set imgui imgui_
  call_ AnimationEditor_ctor : members.

(** Splits a goal [steps R m] along the structure of [m]; [prim] closes the
    goals about the primitives that [R] is sensitive to. *)
Ltac steps_with prim :=
  repeat (cbv beta;
    first
      [ prim
      | apply steps_ret; typeclasses eauto
      | apply steps_get; typeclasses eauto
      | apply steps_get_resource; typeclasses eauto
      | apply steps_read; typeclasses eauto
      | apply steps_bind; [typeclasses eauto | | intros ?]
      | apply steps_when; [typeclasses eauto |]
      | apply steps_and_then; [typeclasses eauto | |]
      | apply steps_for_loop; [typeclasses eauto | | intros ?]
      | match goal with
        | |- steps _ (if ?b then _ else _) => destruct b
        | |- steps _ (match ?v with _ => _ end) => destruct v
        end
      | progress autounfold with members ]).

(** *** Runs only add to the trace *)

Section Emitting.

Context {W : Type} {H : Host W}.

#[global] Instance emitting_preorder (P : Event -> Prop) : PreOrder (emitting (W := W) P).
Proof.
  split.
  - intros s. exists []. split; [by rewrite app_nil_r | constructor].
  - intros s1 s2 s3 (e1 & H1 & F1) (e2 & H2 & F2). exists (e1 ++ e2). split.
    + by rewrite H2, H1, app_assoc.
    + by apply Forall_app.
Qed.

Variable P : Event -> Prop.

Lemma emitting_set_this (f : AnimationEditor -> AnimationEditor) :
  steps (emitting P) (set_this (W := W) f).
Proof. intros s. exists []. split; [by rewrite app_nil_r | constructor]. Qed.

Lemma emitting_set_resource (f : ControllerResource -> ControllerResource) :
  steps (emitting P) (set_resource (W := W) f).
Proof. intros s. exists []. split; [by rewrite app_nil_r | constructor]. Qed.

Lemma emitting_call {A} (f : W -> A * W) (ev : A -> Event) :
  (forall a, P (ev a)) -> steps (emitting P) (call f ev).
Proof.
  intros HP s. unfold call. destruct (f (world s)) as [a w]. simpl.
  exists [ev a]. split; [done | by repeat constructor].
Qed.

Lemma emitting_createEventType {E : Engine} (ty : string) :
  steps (emitting P) (createEventType (W := W) ty).
Proof. intros s. exists []. split; [by rewrite app_nil_r | constructor]. Qed.

End Emitting.

Ltac emitting_prim :=
  first
    [ apply emitting_set_this | apply emitting_set_resource
    | apply emitting_createEventType
    | apply emitting_call; intros; cbn; try done; try tauto ].

Ltac emitting_auto := steps_with emitting_prim.

(** *** Fields of the editor along a run *)

Section Keeping.

Context {W : Type} {H : Host W}.

#[global] Instance keeping_preorder (Q : relation AnimationEditor) `{!PreOrder Q} :
  PreOrder (keeping (W := W) Q).
Proof.
  split.
  - intros s. unfold keeping. reflexivity.
  - intros s1 s2 s3 H1 H2. unfold keeping in *. etransitivity; eauto.
Qed.

Context (Q : relation AnimationEditor) `{!PreOrder Q}.

Lemma keeping_set_this (f : AnimationEditor -> AnimationEditor) :
  (forall e, Q e (f e)) -> steps (keeping Q) (set_this (W := W) f).
Proof. intros Hf s. apply Hf. Qed.

Lemma keeping_set_resource (f : ControllerResource -> ControllerResource) :
  steps (keeping Q) (set_resource (W := W) f).
Proof. intros s. unfold keeping. simpl. reflexivity. Qed.

Lemma keeping_call {A} (f : W -> A * W) (ev : A -> Event) :
  steps (keeping Q) (call f ev).
Proof.
  intros s. unfold call, keeping. destruct (f (world s)) as [a w]. simpl.
  reflexivity.
Qed.

End Keeping.

Ltac keeping_prim :=
  first
    [ apply keeping_set_resource; typeclasses eauto
    | apply keeping_call; typeclasses eauto
    | apply keeping_set_this; intros; cbn; try done ].

Ltac keeping_auto := steps_with keeping_prim.

#[global] Instance more_event_types_preorder : PreOrder more_event_types.
Proof.
  split.
  - intros e. unfold more_event_types. lia.
  - intros e1 e2 e3. unfold more_event_types. lia.
Qed.

Section EventTypes.

Context {E : Engine} {W : Type} {H : Host W}.

Lemma createEventType_more_event_types (ty : string) :
  steps (keeping more_event_types) (createEventType (W := W) ty).
Proof.
  intros s. unfold keeping, more_event_types, createEventType, Array.push. cbn.
  rewrite length_app. lia.
Qed.

Lemma run_more_event_types (op : Operation) :
  steps (keeping more_event_types) (run (W := W) op).
Proof.
  destruct op;
    steps_with ltac:(first [apply createEventType_more_event_types | keeping_prim]).
  all: unfold more_event_types; simpl; lia.
Qed.

End EventTypes.

(** ** Event types *)

Section GetEventType.

Context {E : Engine} {W : Type} {H : Host W}.

Lemma getEventType_loop_found (l : list EventType) (ty : u32) (k i : nat) :
  getEventType_loop l ty k = Some i ->
  exists j, i = (k + j)%nat /\ first_with_type l ty j.
Proof.
  revert k. induction l as [|e l IH]; intros k; simpl; [done |].
  destruct (Z.eqb_spec (type e) ty) as [Heq | Hne].
  - intros [= <-]. exists 0%nat. split; [lia |]. split.
    + by exists e.
    + intros j e' Hj. lia.
  - intros Hl. destruct (IH _ Hl) as (j & -> & (e' & He' & Hty) & Hfirst).
    exists (S j). split; [lia |]. split.
    + by exists e'.
    + intros [|j'] e'' Hlt; simpl.
      * by intros [= <-].
      * apply Hfirst. lia.
Qed.

Lemma getEventType_loop_none (l : list EventType) (ty : u32) (k : nat) :
  getEventType_loop l ty k = None -> no_event_type l ty.
Proof.
  revert k. induction l as [|e l IH]; intros k; simpl.
  - intros _ e He. by apply elem_of_nil in He.
  - destruct (Z.eqb_spec (type e) ty) as [Heq | Hne]; [done |].
    intros Hl e' [-> | He']%elem_of_cons; [done | by eapply IH].
Qed.

Lemma construct_event_types (w : W) :
  m_event_types (this (construct w)) =
  [mkEventType (crc32 "set_input") "Set Input" sizeof_SetInputEvent onSetInputGUI].
Proof.
  unfold construct, exec, AnimationEditor_ctor, new_m_resource, createEventType,
    call_, call, bind, get, get_resource, set_this, set_resource, read, ret.
  cbn. destruct (ControllerResource_new _ _ _) as [[p r] w']. reflexivity.
Qed.

Lemma reachable_event_types (s : Sys W) :
  reachable s -> m_event_types (this s) <> [].
Proof.
  induction 1 as [w | s op _ IH | s r w _ IH | s idx e _ IH].
  - by rewrite construct_event_types.
  - pose proof (run_more_event_types op s) as Hle.
    unfold keeping, more_event_types in Hle. unfold exec.
    destruct (m_event_types (this s)); [done |].
    destruct (m_event_types (this (run op s).2)); [simpl in Hle; lia | done].
  - exact IH.
  - simpl. intros Hnil. apply IH.
    apply (f_equal length) in Hnil. rewrite length_insert in Hnil.
    by destruct (m_event_types (this s)).
Qed.

(** C9: [getEventType(type)] returns the first registered event type whose
    tag is [type]; when no registered event type has that tag it returns the
    one at index 0.  The constructor registers "set_input", the list of event
    types never shrinks afterwards, so in every state a constructed editor
    can be in the call has a result. *)
Theorem getEventType_first_match_or_index_0 :
  (forall w : W,
     m_event_types (this (construct w)) =
     [mkEventType (crc32 "set_input") "Set Input" sizeof_SetInputEvent onSetInputGUI]) /\
  (forall (s : Sys W) (ty : u32),
     reachable s ->
     exists i, getEventType (this s) ty = Some i /\
       (first_with_type (m_event_types (this s)) ty i \/
        (no_event_type (m_event_types (this s)) ty /\ i = 0%nat /\
         is_Some (m_event_types (this s) !! 0%nat)))).
Proof.
  split; [exact construct_event_types |].
  intros s ty Hs. apply reachable_event_types in Hs. unfold getEventType.
  destruct (getEventType_loop (m_event_types (this s)) ty 0) as [i|] eqn:Hloop.
  - exists i. split; [done |]. left.
    apply getEventType_loop_found in Hloop as (j & -> & Hj). exact Hj.
  - apply getEventType_loop_none in Hloop.
    destruct (m_event_types (this s)) as [|e l] eqn:Hl; [done |].
    exists 0%nat. split; [done |]. right. split; [done |]. split; [done |].
    by exists e.
Qed.

End GetEventType.

(** ** The animation slots *)

Section Slots.

Context {E : Engine} {W : Type} {H : Host W}.

Lemma find_from_existsb {A} (p : A -> bool) (l : list A) (i : int) :
  0 <= i -> (0 <=? Array.find_from p l i) = existsb p l.
Proof.
  revert i. induction l as [|a l IH]; intros i Hi; simpl; [done |].
  destruct (p a); simpl.
  - by apply Z.leb_le.
  - apply IH. lia.
Qed.

Lemma find_name_spec (name : string) (slots : list string) :
  (0 <=? Array.find (fun val => String.eqb val name) slots) = bool_decide (name ∈ slots).
Proof.
  unfold Array.find. rewrite find_from_existsb by lia.
  destruct (bool_decide_reflect (name ∈ slots)) as [Hin | Hnin].
  - apply existsb_exists. exists name. split.
    + by apply list_elem_of_In.
    + apply String.eqb_refl.
  - apply not_true_is_false. intros (val & Hval & Heq)%existsb_exists.
    apply String.eqb_eq in Heq. subst val. by apply Hnin, list_elem_of_In.
Qed.

Lemma empty_names_app (l1 l2 : list string) :
  empty_names (l1 ++ l2) = (empty_names l1 + empty_names l2)%nat.
Proof. unfold empty_names. by rewrite List.filter_app, length_app. Qed.

Lemma empty_names_0 (l : list string) :
  EmptyString ∉ l -> empty_names l = 0%nat.
Proof.
  unfold empty_names. induction l as [|a l IH]; simpl; [done |].
  intros Hnin. destruct (String.eqb_spec a EmptyString) as [-> | Hne].
  - exfalso. apply Hnin. by left.
  - apply IH. intros Hin. apply Hnin. by right.
Qed.

(** C10: "Add slot (row)" adds nothing and logs an error when a slot with an
    empty name exists, and otherwise appends exactly one slot with an empty
    name; either way a slot list with at most one empty name keeps at most
    one, and nothing else of the editor or of the resource changes. *)
Theorem add_slot_at_most_one_empty_name (s : Sys W) :
  let slots := getAnimationSlots (resource s) in
  let s' := exec add_slot s in
  let slots' := getAnimationSlots (resource s') in
  (EmptyString ∈ slots ->
     slots' = slots /\
     exists msg, trace s' = trace s ++ [EvLogError "Animation" msg]) /\
  (EmptyString ∉ slots ->
     slots' = slots ++ [EmptyString] /\ trace s' = trace s /\ world s' = world s) /\
  ((empty_names slots <= 1)%nat -> (empty_names slots' <= 1)%nat) /\
  this s' = this s /\
  m_animation_set (resource s') = m_animation_set (resource s) /\
  m_sets_names (resource s') = m_sets_names (resource s) /\
  getRoot (resource s') = getRoot (resource s).
Proof.
  unfold exec, add_slot, call_, call, bind, get_resource, set_resource, ret.
  cbn zeta. cbn [fst snd]. rewrite find_name_spec.
  destruct (bool_decide_reflect (EmptyString ∈ getAnimationSlots (resource s)))
    as [Hin | Hnin]; cbn.
  - repeat split; try done. eauto.
  - repeat split; try done. intros _.
    change (empty_names (getAnimationSlots (resource s) ++ [EmptyString]) <= 1)%nat.
    rewrite empty_names_app, (empty_names_0 _ Hnin). cbn. lia.
Qed.

(** C8: renaming slot [i] to [name].  When another slot already has that
    name, the slots and the animation-set entries stay as they are and the
    error is logged.  Otherwise every entry whose hash is the CRC of the old
    name gets the CRC of the new name, the other entries stay, and slot [i]
    is called [name].  (The error is logged whenever some slot, [i]
    included, has the name; nothing else changes in any case.) *)
Theorem rename_slot_atomic (s : Sys W) (i : nat) (old name : string) :
  getAnimationSlots (resource s) !! i = Some old ->
  let slots := getAnimationSlots (resource s) in
  let entries := m_animation_set (resource s) in
  let s' := exec (rename_slot (Z.of_nat i) name) s in
  let slots' := getAnimationSlots (resource s') in
  let entries' := m_animation_set (resource s') in
  ((exists j, j <> i /\ slots !! j = Some name) ->
     slots' = slots /\ entries' = entries /\
     trace s' = trace s ++
       [EvLogError "Animation" ("Slot " +:+ name +:+ " already exists.")]) /\
  (~ (exists j, j <> i /\ slots !! j = Some name) ->
     slots' = <[i := name]> slots /\
     entries' = List.map (rehash (crc32 old) (crc32 name)) entries) /\
  trace s' = trace s ++
    (if bool_decide (name ∈ slots)
     then [EvLogError "Animation" ("Slot " +:+ name +:+ " already exists.")]
     else []) /\
  this s' = this s /\
  m_sets_names (resource s') = m_sets_names (resource s) /\
  getRoot (resource s') = getRoot (resource s).
Proof.
  intros Hold. cbn zeta.
  unfold exec, rename_slot, slot_at, call_, call, bind, get_resource, set_resource, ret.
  cbn zeta. cbn [fst snd]. rewrite find_name_spec.
  destruct (bool_decide_reflect (name ∈ getAnimationSlots (resource s)))
    as [Hin | Hnin]; cbn.
  - assert (Hsame : ~ (exists j, j <> i /\ getAnimationSlots (resource s) !! j = Some name) ->
                    name = old).
    { intros Hother. destruct (decide (name = old)) as [-> | Hne]; [done |].
      exfalso. apply Hother. apply list_elem_of_lookup in Hin as [j Hj].
      exists j. split; [| done]. intros ->. congruence. }
    split; [done |]. split; [| done]. intros ->%Hsame. split.
    + symmetry. by apply list_insert_id.
    + symmetry. erewrite map_ext; [apply map_id |].
      intros e. unfold rehash.
      destruct (Z.eqb_spec (hash e) (crc32 old)) as [Heq|]; [| done].
      destruct e; simpl in *. by subst.
  - split; [| split; [| by rewrite app_nil_r]].
    + intros (j & _ & Hj). exfalso. apply Hnin. apply list_elem_of_lookup. eauto.
    + intros _. unfold Array.assign, Array.get. rewrite Nat2Z.id, Hold. done.
Qed.

End Slots.

(** ** Loading and saving *)

(** Unfolds the monad and the members down to the calls into the host. *)
Ltac run_members :=
  unfold exec, eval;
  autounfold with members;
  unfold and_then, when, call, bind, get, get_resource, set_this, set_resource,
    read, ret;
  cbn beta iota zeta delta [fst snd this resource world trace].

(** Names the result of the next call into the host. *)
Ltac host_call :=
  match goal with
  | |- context [match ?e with pair _ _ => _ end] =>
      lazymatch e with
      | pair _ _ => fail
      | context [match _ with pair _ _ => _ end] => fail
      | (if _ then _ else _) _ => fail
      | _ => destruct e eqn:?
      end
  end;
  cbn beta iota zeta delta [fst snd this resource world trace].

(** Runs to the end, splitting on every answer that is branched on. *)
Ltac run_host :=
  repeat first
    [ host_call
    | match goal with
      | |- context [if ?b then _ else _] => is_var b; destruct b
      | |- context [if negb ?b then _ else _] => is_var b; destruct b
      end;
      cbn beta iota zeta delta [fst snd this resource world trace negb] ];
  subst.

(** Brings both sides of an equation between traces to the same shape. *)
Ltac trace_eq :=
  unfold id; cbn [trace this resource world];
  rewrite <- ?app_assoc; cbn [app]; try done.

Section LoadSave.

Context {E : Engine} {W : Type} {H : Host W}.

(** Every operation only adds to the trace. *)
Lemma run_more_trace (op : Operation) :
  steps (emitting (fun _ => True)) (run (W := W) op).
Proof. destruct op; emitting_auto. Qed.

(** C1: [load] reads the file at [m_path] and hands its bytes to
    [deserialize].  When that succeeds, the resource object is the
    deserialized one, [m_resource] still points to it and [m_container] is
    its root.  When it fails, the old object is deleted, a newly constructed
    [ControllerResource] takes its place ([m_resource] points to it) and
    [m_container] is the root of the new object.  Nothing else of the editor
    changes, and the file is closed at the end in both cases. *)
Theorem load_falls_back_to_empty_controller (s : Sys W) :
  let s' := exec load s in
  let p := m_resource (this s) in
  exists r_open sz r_read data ok obj,
    let n := int_of_size_t sz in
    let reading :=
      [ EvFileOpen (m_path (this s)) OPEN_AND_READ r_open;
        EvFileSize sz;
        EvFileRead n r_read data;
        EvDeserialize p data n ok obj ] in
    if ok then
      trace s' = trace s ++ reading ++ [EvFileClose] /\
      resource s' = obj /\
      this s' = set_m_container (getRoot obj) (this s)
    else
      exists anim_sys manager p' fresh,
        trace s' = trace s ++ reading ++
          [EvDelete p obj; EvNew anim_sys manager p' fresh; EvFileClose] /\
        resource s' = fresh /\
        this s' = set_m_container (getRoot fresh) (set_m_resource p' (this s)).
Proof.
  run_members. run_host.
  - eexists _, _, _, _, true, _. cbn iota. by trace_eq.
  - eexists _, _, _, _, false, _. cbn iota. eexists _, _, _, _. by trace_eq.
Qed.

Lemma save_with_path (s : Sys W) :
  cstr_empty (m_path (this s)) = false ->
  let s' := exec save s in
  exists blob r_open r_write,
    trace s' = trace s ++
      [ EvSerialize (m_resource (this s)) (resource s) blob;
        EvFileOpen (m_path (this s)) CREATE_AND_WRITE r_open;
        EvFileWrite blob (Array.size blob) r_write;
        EvFileClose ] /\
    this s' = this s /\ resource s' = resource s.
Proof.
  intros Hpath. run_members. rewrite Hpath. run_host.
  eexists _, _, _. by trace_eq.
Qed.

Lemma save_without_path (s : Sys W) :
  cstr_empty (m_path (this s)) = true ->
  let s' := exec save s in
  exists ok out,
    let prompt :=
      EvGetSaveFilename (m_path (this s)) (Z.of_nat MAX_PATH_LENGTH)
        ACT_FILTER EmptyString ok out in
    this s' = set_m_path out (this s) /\ resource s' = resource s /\
    if ok then
      exists blob r_open r_write,
        trace s' = trace s ++
          [ prompt;
            EvSerialize (m_resource (this s)) (resource s) blob;
            EvFileOpen out CREATE_AND_WRITE r_open;
            EvFileWrite blob (Array.size blob) r_write;
            EvFileClose ]
    else trace s' = trace s ++ [prompt].
Proof.
  intros Hpath. run_members. rewrite Hpath. run_host.
  - eexists true, _. cbn iota. do 2 (split; [done |]).
    eexists _, _, _. fold ACT_FILTER. by trace_eq.
  - eexists false, _. cbn iota. do 2 (split; [done |]). fold ACT_FILTER. by trace_eq.
Qed.

Lemma saveAs_prompts_then_saves (s : Sys W) :
  exists ok out w,
    PlatformInterface_getSaveFilename (m_path (this s)) (Z.of_nat MAX_PATH_LENGTH)
      ACT_FILTER EmptyString (world s) = (ok, out, w) /\
    let prompted :=
      mkSys (set_m_path out (this s)) (resource s) w
        (trace s ++ [EvGetSaveFilename (m_path (this s)) (Z.of_nat MAX_PATH_LENGTH)
                       ACT_FILTER EmptyString ok out]) in
    exec saveAs s = if ok then exec save prompted else prompted.
Proof.
  unfold exec, saveAs, getSaveFilename_m_path, call, bind, get, set_this, ret.
  cbn beta iota zeta delta [fst snd this resource world trace].
  fold ACT_FILTER.
  destruct (PlatformInterface_getSaveFilename _ _ _ _ _) as [[ok out] w] eqn:Hdlg.
  exists ok, out, w. split; [done |]. by destruct ok.
Qed.



(** C4: [save], [saveAs], [load], [loadFromFile] and [loadFromEntity]
    return nothing and do not even log.  What [open], [write] and [read]
    return has no influence on what follows: [save] writes and closes after
    any result of [open], and [load] goes on with whatever is in the buffer
    after any result of [open] and [read]; the results only show up in the
    trace. *)
Theorem file_results_are_not_checked :
  (forall op, op ∈ [OpSave; OpSaveAs; OpLoad; OpLoadFromFile; OpLoadFromEntity] ->
     steps (emitting (fun e => is_log e = false)) (run (W := W) op)) /\
  (forall (s : Sys W) r_open w1 r_write w2,
     let blob := ControllerResource_serialize (resource s) (world s) in
     cstr_empty (m_path (this s)) = false ->
     OsFile_open (m_path (this s)) CREATE_AND_WRITE (world s) = (r_open, w1) ->
     OsFile_write blob (Array.size blob) w1 = (r_write, w2) ->
     save s =
     (tt, mkSys (this s) (resource s) (OsFile_close w2)
            (trace s ++
               [ EvSerialize (m_resource (this s)) (resource s) blob;
                 EvFileOpen (m_path (this s)) CREATE_AND_WRITE r_open;
                 EvFileWrite blob (Array.size blob) r_write;
                 EvFileClose ]))) /\
  (forall (s : Sys W) r_open w1 r_read data w2,
     let n := int_of_size_t (OsFile_size w1) in
     OsFile_open (m_path (this s)) OPEN_AND_READ (world s) = (r_open, w1) ->
     OsFile_read n w1 = (r_read, data, w2) ->
     load s =
     (do ok <- deserialize data n;
      (if ok then
         do root <- get_resource getRoot;
         set_this (set_m_container root)
       else
         delete_m_resource;;
         new_m_resource);;
      call_ OsFile_close EvFileClose)
       (mkSys (this s) (resource s) w2
          (trace s ++
             [ EvFileOpen (m_path (this s)) OPEN_AND_READ r_open;
               EvFileSize (OsFile_size w1);
               EvFileRead n r_read data ]))).
Proof.
  split; [| split].
  - intros op Hop. repeat (apply elem_of_cons in Hop as [-> | Hop]);
      [emitting_auto .. | by apply elem_of_nil in Hop].
  - intros s r_open w1 r_write w2 blob Hpath Hopen Hwrite. subst blob.
    unfold save, serialize, getSaveFilename_m_path, call_, and_then, call, bind,
      get, get_resource, set_this, ret.
    cbn beta iota zeta delta [fst snd this resource world trace id].
    rewrite Hpath. cbn beta iota zeta delta [fst snd this resource world trace id].
    rewrite Hopen. cbn beta iota zeta delta [fst snd this resource world trace id].
    rewrite Hwrite. cbn beta iota zeta delta [fst snd this resource world trace id].
    do 2 f_equal. by trace_eq.
  - intros s r_open w1 r_read data w2 n Hopen Hread. subst n.
    unfold load at 1. unfold call, bind at 1 2 3 4, get, ret.
    cbn beta iota zeta delta [fst snd this resource world trace id].
    rewrite Hopen. cbn beta iota zeta delta [fst snd this resource world trace id].
    rewrite Hread. cbn beta iota zeta delta [fst snd this resource world trace id].
    rewrite <- !app_assoc. reflexivity.
Qed.

Lemma loadFromFile_prompts (s : Sys W) :
  exists ok out evs,
    trace (exec loadFromFile s) = trace s ++
      EvGetOpenFilename (m_path (this s)) (Z.of_nat MAX_PATH_LENGTH)
        ACT_FILTER EmptyString ok out :: evs.
Proof.
  run_members. run_host.
  - eexists true, _, _. fold ACT_FILTER. by trace_eq.
  - eexists true, _, _. fold ACT_FILTER. by trace_eq.
  - eexists false, _, []. fold ACT_FILTER. by trace_eq.
Qed.

(** C5: whatever operation runs, every file dialog it opens is given the
    filter "Animation controllers\0*.act\0": a description, a NUL, the
    pattern ["*.act"], a NUL.  [saveAs] and [loadFromFile] always open one,
    [save] opens one when [m_path] is empty. *)
Theorem file_dialogs_filter_act :
  (forall op, steps (emitting act_filtered) (run (W := W) op)) /\
  (String.length ACT_FILTER = 28%nat /\
   String.substring 0 21 ACT_FILTER = "Animation controllers" /\
   String.get 21 ACT_FILTER = Some NUL /\
   String.substring 22 5 ACT_FILTER = "*.act" /\
   String.get 27 ACT_FILTER = Some NUL) /\
  (forall s : Sys W,
     (cstr_empty (m_path (this s)) = true ->
      exists ok out evs,
        trace (exec save s) = trace s ++
          EvGetSaveFilename (m_path (this s)) (Z.of_nat MAX_PATH_LENGTH)
            ACT_FILTER EmptyString ok out :: evs) /\
     (exists ok out evs,
        trace (exec saveAs s) = trace s ++
          EvGetSaveFilename (m_path (this s)) (Z.of_nat MAX_PATH_LENGTH)
            ACT_FILTER EmptyString ok out :: evs) /\
     (exists ok out evs,
        trace (exec loadFromFile s) = trace s ++
          EvGetOpenFilename (m_path (this s)) (Z.of_nat MAX_PATH_LENGTH)
            ACT_FILTER EmptyString ok out :: evs)).
Proof.
  split; [| split].
  - intros op. destruct op; emitting_auto.
  - by repeat split.
  - intros s. split; [| split].
    + intros Hpath.
      destruct (save_without_path s Hpath) as (ok & out & _ & _ & Htr).
      exists ok, out. destruct ok.
      * destruct Htr as (blob & r_open & r_write & ->). eauto.
      * rewrite Htr. eauto.
    + destruct (saveAs_prompts_then_saves s) as (ok & out & w & _ & ->).
      exists ok, out. destruct ok; [| by exists []].
      match goal with |- context [exec save ?s1] =>
        destruct (run_more_trace OpSave s1) as (evs & Hevs & _) end.
      exists evs. unfold exec. cbn [run] in Hevs. rewrite Hevs. by trace_eq.
    + apply loadFromFile_prompts.
Qed.

End LoadSave.

(** ** The File menu *)

Section FileMenu.

Context {E : Engine} {W : Type} {H : Host W}.

Lemma menu_labels_quiet (evs tl : list Event) :
  Forall menu_quiet evs -> menu_labels (evs ++ tl) = menu_labels tl.
Proof.
  induction 1 as [|e evs He _ IH]; [done |].
  destruct e; simpl in *; try done.
  - by match goal with q : ImGuiQuery |- _ => destruct q end.
  - by match goal with c : ImGuiCmd |- _ => destruct c end.
Qed.

Lemma File_menu_quiet (l : string) (op : M W unit) :
  (l, op) ∈ File_menu -> steps (emitting menu_quiet) op.
Proof.
  unfold File_menu. intros Hin.
  repeat (apply elem_of_cons in Hin as [[= -> ->] | Hin]);
    [emitting_auto .. | by apply elem_of_nil in Hin].
Qed.

(** The trace of a menu: every item is asked about once, in order, and what
    the operations leave in between is no menu item. *)
Lemma offer_labels (items : list (string * M W unit)) (after : M W unit) :
  (forall l op, (l, op) ∈ items -> steps (emitting menu_quiet) op) ->
  forall s, exists evs s1,
    offer items after s = after s1 /\
    trace s1 = trace s ++ evs /\
    forall tl, menu_labels (evs ++ tl) = (fst <$> items) ++ menu_labels tl.
Proof.
  induction items as [|[l op] items IH]; intros Hq s.
  - exists [], s. simpl. by rewrite app_nil_r.
  - simpl. unfold bind at 1, imgui, call.
    destruct (ImGui (MenuItem l None false true) (world s)) as [c w].
    set (s0 := mkSys (this s) (resource s) w
                 (trace s ++ [EvImGui (MenuItem l None false true) c])).
    unfold bind at 1.
    assert (Hop : emitting menu_quiet s0 (when c op s0).2).
    { destruct c; simpl; [| reflexivity].
      apply (Hq l op). by left. }
    destruct (when c op s0) as [[] s2]. simpl in Hop. destruct Hop as (e2 & He2 & Hq2).
    destruct (IH (fun l' op' Hin => Hq l' op' (list_elem_of_further _ _ _ Hin)) s2)
      as (evs & s1 & Hrun & Htr & Hlab).
    exists ([EvImGui (MenuItem l None false true) c] ++ e2 ++ evs), s1.
    split; [exact Hrun |]. split.
    + rewrite Htr, He2. subst s0. by trace_eq.
    + intros tl. simpl. f_equal. rewrite <- app_assoc.
      rewrite menu_labels_quiet by done. apply Hlab.
Qed.

Lemma menu_bar_with_File_labels (rest : M W unit) (s : Sys W) :
  steps (emitting (fun _ => True)) rest ->
  exists bar evs,
    trace (exec (menu_bar_with_File File_menu rest) s) =
      trace s ++ EvImGui BeginMenuBar bar :: evs /\
    (bar = false -> evs = []) /\
    (bar = true -> exists file evs',
       evs = EvImGui (BeginMenu "File") file :: evs' /\
       (file = true -> menu_labels evs' = fst <$> File_menu)).
Proof.
  intros Hrest. unfold menu_bar_with_File, exec, imgui. unfold bind at 1, call at 1.
  destruct (ImGui BeginMenuBar (world s)) as [bar w1]. destruct bar; cbn [when snd].
  2:{ exists false, []. by repeat split. }
  unfold bind at 1, call at 1. cbn [world this resource trace].
  destruct (ImGui (BeginMenu "File") w1) as [file w2].
  unfold bind at 1. destruct file; cbn [when].
  - match goal with |- context [offer File_menu ?k ?s2] =>
      destruct (offer_labels File_menu k File_menu_quiet s2)
        as (evs & s3 & -> & Htr & Hlab) end.
    unfold imgui_, call_, call at 1. cbn [fst snd].
    match goal with |- context [rest ?s4] =>
      destruct (Hrest s4) as (e4 & He4 & _) end.
    exists true, (EvImGui (BeginMenu "File") true :: evs ++ EvImGuiCmd EndMenu :: e4).
    split; [| split; [done |]].
    + rewrite He4. cbn [trace]. rewrite Htr. by trace_eq.
    + intros _. eexists true, _. split; [done |]. intros _.
      rewrite Hlab. cbn [menu_labels]. apply app_nil_r.
  - cbn [ret snd].
    match goal with |- context [rest ?s4] =>
      destruct (Hrest s4) as (e4 & He4 & _) end.
    exists true, (EvImGui (BeginMenu "File") false :: e4).
    split; [| split; [done |]].
    + rewrite He4. by trace_eq.
    + intros _. by eexists false, _.
Qed.

Lemma menuGUI_shape :
  exists rest : M W unit,
    steps (emitting (fun _ => True)) rest /\
    forall s, menuGUI s = menu_bar_with_File File_menu rest s.
Proof.
  eexists. split; [| intros s; reflexivity]. emitting_auto.
Qed.

(** C3: the File menu of [menuGUI] is the list of the five commands New,
    Save, Save As, Open and Open from selected entity, each bound to
    [newController], [save], [saveAs], [loadFromFile] and [loadFromEntity]:
    [menuGUI] is a menu bar whose File menu offers exactly this list; an
    offered item that is clicked runs its operation before the next item is
    shown, and one that is not clicked runs nothing; and in every frame in
    which the File menu is open the items shown in it are these five, in
    this order. *)
Theorem File_menu_offers_five_commands :
  (exists rest : M W unit,
     forall s,
       menuGUI s =
       menu_bar_with_File
         [ ("New", newController);
           ("Save", save);
           ("Save As", saveAs);
           ("Open", loadFromFile);
           ("Open from selected entity", loadFromEntity) ] rest s) /\
  (forall (l : string) (op : M W unit) items after (s : Sys W) c w,
     ImGui (MenuItem l None false true) (world s) = (c, w) ->
     let asked :=
       mkSys (this s) (resource s) w
         (trace s ++ [EvImGui (MenuItem l None false true) c]) in
     offer ((l, op) :: items) after s =
     offer items after (if c then exec op asked else asked)) /\
  (forall s : Sys W,
     exists bar evs,
       trace (exec menuGUI s) = trace s ++ EvImGui BeginMenuBar bar :: evs /\
       (bar = false -> evs = []) /\
       (bar = true -> exists file evs',
          evs = EvImGui (BeginMenu "File") file :: evs' /\
          (file = true ->
           menu_labels evs' =
           ["New"; "Save"; "Save As"; "Open"; "Open from selected entity"]))).
Proof.
  destruct menuGUI_shape as (rest & Hrest & Hshape).
  split; [by exists rest |]. split.
  - intros l op items after s c w Hc. cbn zeta. simpl.
    unfold bind at 1, imgui, call. rewrite Hc. unfold bind at 1.
    destruct c; simpl; [| done]. unfold exec. by destruct (op _) as [[] s1].
  - intros s. unfold exec. rewrite Hshape.
    apply (menu_bar_with_File_labels rest s Hrest).
Qed.

End FileMenu.

(** ** Panning the canvas *)

Section Panning.

Context {E : Engine} {W : Type} {H : Host W}.

#[local] Instance quietly_preorder (P : Event -> Prop) : PreOrder (quietly (W := W) P).
Proof.
  split.
  - intros s. repeat split. exists []. split; [by rewrite app_nil_r | constructor].
  - intros s1 s2 s3 (Ht1 & Hr1 & e1 & H1 & F1) (Ht2 & Hr2 & e2 & H2 & F2).
    split; [congruence |]. split; [congruence |].
    exists (e1 ++ e2). split.
    + by rewrite H2, H1, app_assoc.
    + by apply Forall_app.
Qed.





End Panning.

(** ** The loops of the slots table run to their end *)

Section Fuel.

Context {E : Engine} {W : Type} {H : Host W}.

(** A loop whose bound is [sz] of the state and whose body brings [i + 1]
    one step closer to it needs no more than [sz - i] iterations. *)
Lemma for_loop_enough (bound : M W int) (body : int -> M W int) (sz : Sys W -> int) :
  (forall s, bound s = (sz s, s)) ->
  (forall s i, 0 <= i < sz s ->
     -1 <= (body i s).1 /\
     sz (body i s).2 - ((body i s).1 + 1) = sz s - i - 1) ->
  forall fuel extra i s,
    0 <= i -> (Z.to_nat (sz s - i) <= fuel)%nat ->
    for_loop (fuel + extra) i bound body s = for_loop fuel i bound body s.
Proof.
  intros Hbound Hbody. induction fuel as [|fuel IH]; intros extra i s Hi Hfuel.
  - destruct extra as [|extra]; [done |]. simpl. unfold bind at 1.
    rewrite Hbound. destruct (Z.ltb_spec i (sz s)); [lia | done].
  - simpl. unfold bind at 1 3. rewrite Hbound.
    destruct (Z.ltb_spec i (sz s)) as [Hlt | Hge]; [| done].
    unfold bind at 1 2. destruct (Hbody s i ltac:(lia)) as [Hi' Hsz].
    destruct (body i s) as [i' s']. simpl in Hi', Hsz. apply IH; lia.
Qed.

#[local] Instance keeping_resource_preorder (Q : relation ControllerResource)
  `{!PreOrder Q} : PreOrder (keeping_resource (W := W) Q).
Proof.
  split.
  - intros s. unfold keeping_resource. reflexivity.
  - intros s1 s2 s3 H1 H2. unfold keeping_resource in *. etransitivity; eauto.
Qed.

Lemma keeping_resource_set_this (Q : relation ControllerResource) `{!PreOrder Q}
    (f : AnimationEditor -> AnimationEditor) :
  steps (keeping_resource Q) (set_this (W := W) f).
Proof. intros s. unfold keeping_resource. simpl. reflexivity. Qed.

Lemma keeping_resource_set_resource (Q : relation ControllerResource)
    (f : ControllerResource -> ControllerResource) :
  (forall r, Q r (f r)) -> steps (keeping_resource Q) (set_resource (W := W) f).
Proof. intros Hf s. apply Hf. Qed.

Lemma keeping_resource_call (Q : relation ControllerResource) `{!PreOrder Q}
    {A} (f : W -> A * W) (ev : A -> Event) :
  steps (keeping_resource Q) (call f ev).
Proof.
  intros s. unfold call, keeping_resource. destruct (f (world s)) as [a w]. simpl.
  reflexivity.
Qed.

#[local] Instance same_sets_size_preorder : PreOrder same_sets_size.
Proof. split; [done | intros r1 r2 r3; unfold same_sets_size; congruence]. Qed.

#[local] Instance same_slots_preorder : PreOrder same_slots.
Proof. split; [done | intros r1 r2 r3; unfold same_slots; congruence]. Qed.

Lemma slot_cell_same_slots (slot_hash : u32) (j : int) :
  steps (keeping_resource same_slots) (slot_cell (W := W) slot_hash j).
Proof.
  steps_with ltac:(first
    [ apply keeping_resource_set_this; typeclasses eauto
    | apply keeping_resource_call; typeclasses eauto
    | apply keeping_resource_set_resource; intros; done ]).
Qed.

Lemma slot_cell_same_sets_size (slot_hash : u32) (j : int) :
  steps (keeping_resource same_sets_size) (slot_cell (W := W) slot_hash j).
Proof.
  steps_with ltac:(first
    [ apply keeping_resource_set_this; typeclasses eauto
    | apply keeping_resource_call; typeclasses eauto
    | apply keeping_resource_set_resource; intros; done ]).
Qed.

Lemma slot_row_closer (s : Sys W) (i : int) :
  let sz := fun s : Sys W => Array.size (getAnimationSlots (resource s)) in
  0 <= i < sz s ->
  -1 <= (slot_row i s).1 /\
  sz (slot_row i s).2 - ((slot_row i s).1 + 1) = sz s - i - 1.
Proof.
  cbn zeta. intros Hi.
  unfold slot_row, slot_at, rename_slot, slot_at, when, imgui, imgui_, call_.
  unfold call, bind, get_resource, set_resource, ret.
  cbn beta iota zeta delta [fst snd this resource world trace].
  repeat first
    [ host_call
    | match goal with |- context [if ?c then _ else _] => destruct c eqn:? end;
      cbn beta iota zeta delta [fst snd this resource world trace] ].
  all: match goal with
       | Hloop : for_loop ?f ?j ?b ?body ?sm = (_, ?s1) |- _ =>
           assert (Hs : keeping_resource same_slots sm
                          (for_loop f j b body sm).2)
             by (apply steps_for_loop;
                 [ typeclasses eauto | intros ?; reflexivity
                 | apply slot_cell_same_slots ]);
           rewrite Hloop in Hs; unfold keeping_resource, same_slots in Hs;
           cbn [snd resource getAnimationSlots set_getAnimationSlots
                set_m_animation_set] in Hs;
           rewrite Hs
       end.
  all: unfold Array.size, Array.assign, Array.erase in *.
  all: cbn [getAnimationSlots set_getAnimationSlots set_m_animation_set
            m_animation_set m_sets_names getRoot] in *.
  all: rewrite ?length_insert.
  all: try (destruct (Z.leb_spec 0 i); [| lia];
            destruct (Z.ltb_spec i (Z.of_nat (length (getAnimationSlots (resource s)))));
            [| lia]; cbn [andb];
            rewrite length_delete
              by (apply lookup_lt_is_Some; rewrite ?length_insert; lia);
            rewrite ?length_insert).
  all: lia.
Qed.

(** The fuel [animationSlotsGUI] gives the loop over the rows is enough. *)
Lemma slot_rows_fuel (s : Sys W) (extra : nat) :
  let bound := get_resource (fun r => Array.size (getAnimationSlots r)) in
  for_loop (length (getAnimationSlots (resource s)) + extra) 0 bound slot_row s =
  for_loop (length (getAnimationSlots (resource s))) 0 bound slot_row s.
Proof.
  cbn zeta.
  apply (for_loop_enough _ _ (fun s => Array.size (getAnimationSlots (resource s)))).
  - done.
  - apply slot_row_closer.
  - lia.
  - unfold Array.size. lia.
Qed.

(** A body that returns its index and keeps the number of sets. *)
Lemma sets_loop_fuel (body : int -> M W int) (s : Sys W) (extra : nat) :
  (forall j, steps (keeping_resource same_sets_size) (body j)) ->
  (forall j s, (body j s).1 = j) ->
  let bound := get_resource (fun r => Array.size (m_sets_names r)) in
  for_loop (length (m_sets_names (resource s)) + extra) 0 bound body s =
  for_loop (length (m_sets_names (resource s))) 0 bound body s.
Proof.
  intros Hkeep Hret. cbn zeta.
  apply (for_loop_enough _ _ (fun s => Array.size (m_sets_names (resource s)))).
  - done.
  - intros s0 j Hj. rewrite Hret. split; [lia |].
    specialize (Hkeep j s0). unfold keeping_resource, same_sets_size in Hkeep.
    unfold Array.size. lia.
  - lia.
  - unfold Array.size. lia.
Qed.

Lemma slot_cell_returns (slot_hash : u32) (j : int) (s : Sys W) :
  (slot_cell slot_hash j s).1 = j.
Proof.
  unfold slot_cell, when, imgui_, call_.
  unfold call, bind, get_resource, set_resource, read, ret.
  cbn beta iota zeta delta [fst snd this resource world trace].
  repeat first
    [ host_call
    | match goal with |- context [if ?c then _ else _] => destruct c eqn:? end;
      cbn beta iota zeta delta [fst snd this resource world trace]
    | match goal with |- context [match ?c with Some _ => _ | None => _ end] =>
        destruct c eqn:? end;
      cbn beta iota zeta delta [fst snd this resource world trace] ];
  reflexivity.
Qed.

Lemma set_header_returns (j : int) (s : Sys W) : (set_header j s).1 = j.
Proof.
  unfold set_header, imgui_, call_.
  unfold call, bind, get_resource, set_resource, ret.
  cbn beta iota zeta delta [fst snd this resource world trace].
  repeat host_call. reflexivity.
Qed.

Lemma set_header_same_sets_size (j : int) :
  steps (keeping_resource same_sets_size) (set_header (W := W) j).
Proof.
  intros s. unfold set_header, imgui_, call_.
  unfold call, bind, get_resource, set_resource, ret.
  cbn beta iota zeta delta [fst snd this resource world trace].
  repeat host_call. unfold keeping_resource, same_sets_size, Array.assign.
  cbn. apply length_insert.
Qed.

(** The fuel of the two loops over the sets is enough as well. *)
Lemma set_headers_fuel (s : Sys W) (extra : nat) :
  let bound := get_resource (fun r => Array.size (m_sets_names r)) in
  for_loop (length (m_sets_names (resource s)) + extra) 0 bound set_header s =
  for_loop (length (m_sets_names (resource s))) 0 bound set_header s.
Proof.
  apply sets_loop_fuel; [apply set_header_same_sets_size | apply set_header_returns].
Qed.

Lemma slot_cells_fuel (slot_hash : u32) (s : Sys W) (extra : nat) :
  let bound := get_resource (fun r => Array.size (m_sets_names r)) in
  for_loop (length (m_sets_names (resource s)) + extra) 0 bound (slot_cell slot_hash) s =
  for_loop (length (m_sets_names (resource s))) 0 bound (slot_cell slot_hash) s.
Proof.
  apply sets_loop_fuel; [apply slot_cell_same_sets_size | apply slot_cell_returns].
Qed.

End Fuel.

(** * Properties of the remaining code *)

(** ** One controller resource at a time *)

Section Ownership.

Context {E : Engine} {W : Type} {H : Host W}.

Lemma alloc_run_app (live : option ptr) (e1 e2 : list Event) :
  alloc_run live (e1 ++ e2) =
  match alloc_run live e1 with
  | Some live' => alloc_run live' e2
  | None => None
  end.
Proof.
  revert live. induction e1 as [|e e1 IH]; intros live; [done |].
  destruct e; simpl; try apply IH.
  - destruct live as [q|]; [| done]. destruct (_ =? _); [apply IH | done].
  - destruct live; [done | apply IH].
Qed.

Lemma alloc_run_neutral (live : option ptr) (evs : list Event) :
  Forall alloc_neutral evs -> alloc_run live evs = Some live.
Proof. induction 1 as [|e evs He _ IH]; [done |]. by destruct e. Qed.

#[local] Instance owning_preorder : PreOrder (owning (W := W)).
Proof.
  split.
  - intros s. exists []. by rewrite app_nil_r.
  - intros s1 s2 s3 (e1 & H1 & A1) (e2 & H2 & A2). exists (e1 ++ e2). split.
    + by rewrite H2, H1, app_assoc.
    + by rewrite alloc_run_app, A1.
Qed.

Lemma owning_set_this (f : AnimationEditor -> AnimationEditor) :
  (forall e, m_resource (f e) = m_resource e) -> steps owning (set_this (W := W) f).
Proof. intros Hf s. exists []. simpl. by rewrite app_nil_r, Hf. Qed.

Lemma owning_set_resource (f : ControllerResource -> ControllerResource) :
  steps owning (set_resource (W := W) f).
Proof. intros s. exists []. simpl. by rewrite app_nil_r. Qed.

Lemma owning_call {A} (f : W -> A * W) (ev : A -> Event) :
  (forall a, alloc_neutral (ev a)) -> steps owning (call f ev).
Proof.
  intros Hev s. unfold call. destruct (f (world s)) as [a w]. simpl.
  exists [ev a]. split; [done |]. apply alloc_run_neutral. by repeat constructor.
Qed.

Lemma owning_createEventType (ty : string) :
  steps owning (createEventType (W := W) ty).
Proof. intros s. exists []. simpl. by rewrite app_nil_r. Qed.

(** The deletion of the object and the construction of its successor, taken
    together. *)
Lemma owning_delete_new_end : steps owning (delete_m_resource (W := W);; new_m_resource).
Proof.
  intros s. run_members. run_host.
  eexists [_; _]. split; [by trace_eq |]. simpl. by rewrite Z.eqb_refl.
Qed.

Lemma owning_delete_new {B} (k : unit -> M W B) :
  (forall a, steps owning (k a)) ->
  steps owning (delete_m_resource;; do a <- new_m_resource; k a).
Proof.
  intros Hk s. pose proof (owning_delete_new_end s) as Hdn.
  unfold bind in *. destruct (delete_m_resource s) as [[] s1].
  destruct (new_m_resource s1) as [a s2]. simpl in Hdn.
  etransitivity; [exact Hdn | apply Hk].
Qed.

Ltac owning_prim :=
  first
    [ apply owning_delete_new; intros ?
    | apply owning_delete_new_end
    | apply owning_set_resource
    | apply owning_createEventType
    | apply owning_set_this; intros; reflexivity
    | apply owning_call; intros; cbn; done ].

Lemma run_owning (op : Operation) : steps owning (run (W := W) op).
Proof. destruct op; steps_with owning_prim. Qed.

Lemma construct_owning (w : W) :
  alloc_run None (trace (construct w)) = Some (Some (m_resource (this (construct w)))).
Proof.
  unfold construct, exec, AnimationEditor_ctor, new_m_resource, createEventType,
    call_, call, bind, get, get_resource, set_this, set_resource, read, ret.
  cbn. by destruct (ControllerResource_new _ _ _) as [[p r] w'].
Qed.

Lemma reachable_owning (s : Sys W) :
  reachable s -> alloc_run None (trace s) = Some (Some (m_resource (this s))).
Proof.
  induction 1 as [w | s op _ IH | s r w _ IH | s idx e _ IH]; try done.
  - apply construct_owning.
  - destruct (run_owning op s) as (evs & Htr & Hrun). unfold exec.
    by rewrite Htr, alloc_run_app, IH.
Qed.

(** X1: from its construction to its destruction the editor owns exactly one
    controller resource.  In every state it can be in, the constructions and
    deletions so far alternate, each deletion is of the object constructed
    last, and the object that exists is the one [m_resource] points to; the
    destructor then deletes that object, so that none is left. *)
Theorem one_resource_at_a_time (s : Sys W) :
  reachable s ->
  alloc_run None (trace s) = Some (Some (m_resource (this s))) /\
  alloc_run None (trace (exec AnimationEditor_dtor s)) = Some None.
Proof.
  intros Hs. apply reachable_owning in Hs. split; [exact Hs |].
  unfold exec, AnimationEditor_dtor, delete_m_resource, call_, call, bind, get,
    get_resource. cbn.
  rewrite alloc_run_app, Hs. simpl. by rewrite Z.eqb_refl.
Qed.

End Ownership.

(** ** Begin and End, Push and Pop are paired *)

Section Brackets.

Context {E : Engine} {W : Type} {H : Host W}.

Lemma check_app (e1 e2 : list Event) (st : list Frame) :
  check (e1 ++ e2) st =
  match check e1 st with
  | Some st' => check e2 st'
  | None => None
  end.
Proof.
  revert st. induction e1 as [|e e1 IH]; intros st; [done |].
  simpl. destruct (step_frame e st); [apply IH | done].
Qed.

Lemma brackets_ret {A} (a : A) (st : list Frame) :
  brackets (W := W) st (fun _ => st) (ret a).
Proof. intros s. exists []. by rewrite app_nil_r. Qed.

Lemma brackets_bind {A B} (m : M W A) (k : A -> M W B) st mid post :
  brackets st mid m -> (forall a, brackets (mid a) post (k a)) ->
  brackets st post (bind m k).
Proof.
  intros Hm Hk s. unfold bind. destruct (Hm s) as (e1 & H1 & C1).
  destruct (m s) as [a s1]. destruct (Hk a s1) as (e2 & H2 & C2).
  exists (e1 ++ e2). split.
  - simpl in *. by rewrite H2, H1, app_assoc.
  - simpl in *. by rewrite check_app, C1.
Qed.

Lemma brackets_get {A} (f : AnimationEditor -> A) st :
  brackets (W := W) st (fun _ => st) (get f).
Proof. intros s. exists []. by rewrite app_nil_r. Qed.

Lemma brackets_get_resource {A} (f : ControllerResource -> A) st :
  brackets (W := W) st (fun _ => st) (get_resource f).
Proof. intros s. exists []. by rewrite app_nil_r. Qed.

Lemma brackets_read {A} (f : W -> A) st :
  brackets st (fun _ => st) (read f).
Proof. intros s. exists []. by rewrite app_nil_r. Qed.

Lemma brackets_set_this (f : AnimationEditor -> AnimationEditor) st :
  brackets (W := W) st (fun _ => st) (set_this f).
Proof. intros s. exists []. simpl. by rewrite app_nil_r. Qed.

Lemma brackets_set_resource (f : ControllerResource -> ControllerResource) st :
  brackets (W := W) st (fun _ => st) (set_resource f).
Proof. intros s. exists []. simpl. by rewrite app_nil_r. Qed.

Lemma brackets_createEventType (ty : string) st :
  brackets (W := W) st (fun _ => st) (createEventType ty).
Proof. intros s. exists []. simpl. by rewrite app_nil_r. Qed.

Lemma brackets_call {A} (f : W -> A * W) (ev : A -> Event) st post :
  (forall a, step_frame (ev a) st = Some (post a)) ->
  brackets st post (call f ev).
Proof.
  intros Hev s. unfold call. destruct (f (world s)) as [a w]. simpl.
  exists [ev a]. split; [done |]. simpl. by rewrite Hev.
Qed.

Lemma brackets_when (b : bool) (m : M W unit) st :
  brackets st (fun _ => st) m -> brackets st (fun _ => st) (when b m).
Proof. destruct b; simpl; [done | intros _; apply brackets_ret]. Qed.

Lemma brackets_for_loop (fuel : nat) (i : int) (bound : M W int) (body : int -> M W int)
    st :
  brackets st (fun _ => st) bound ->
  (forall j, brackets st (fun _ => st) (body j)) ->
  brackets st (fun _ => st) (for_loop fuel i bound body).
Proof.
  intros Hb Hbody. revert i. induction fuel as [|fuel IH]; intros i; simpl.
  - apply brackets_ret.
  - eapply brackets_bind; [exact Hb |]. intros n. cbv beta.
    destruct (i <? n); [| apply brackets_ret].
    eapply brackets_bind; [apply Hbody |]. intros i'. apply IH.
Qed.

(** A block that runs exactly when the frame it closes was opened. *)
Lemma brackets_when_open (b : bool) (m : M W unit) st0 st1 :
  brackets st1 (fun _ => st0) m ->
  brackets (if b then st1 else st0) (fun _ => st0) (when b m).
Proof. destruct b; simpl; [done | intros _; apply brackets_ret]. Qed.

Lemma brackets_if {A} (b : bool) (m1 m2 : M W A) st post :
  brackets st post m1 -> brackets st post m2 ->
  brackets st post (if b then m1 else m2).
Proof. by destruct b. Qed.

Lemma brackets_match_list {A B} (l : list B) (m1 : M W A) (m2 : B -> list B -> M W A)
    st post :
  brackets st post m1 -> (forall b l', brackets st post (m2 b l')) ->
  brackets st post (match l with [] => m1 | b :: l' => m2 b l' end).
Proof. by destruct l. Qed.

Lemma brackets_match_option {A B} (o : option B) (m1 : B -> M W A) (m2 : M W A)
    st post :
  (forall b, brackets st post (m1 b)) -> brackets st post m2 ->
  brackets st post (match o with Some b => m1 b | None => m2 end).
Proof. by destruct o. Qed.

(** Splits a goal [brackets st post m] along [m], left to right, so that what
    is open after each call is known when the next one is looked at. *)
Ltac brackets_auto :=
  repeat (cbv beta;
    first
      [ apply brackets_ret
      | apply brackets_get | apply brackets_get_resource | apply brackets_read
      | apply brackets_set_this | apply brackets_set_resource
      | apply brackets_createEventType
      | apply brackets_for_loop; [| intros ?]
      | eapply brackets_call; intros ?; cbn; reflexivity
      | apply brackets_when_open
      | apply brackets_when
      | apply brackets_if
      | apply brackets_match_list; [| intros ? ?]
      | apply brackets_match_option; [intros ? |]
      | eapply brackets_bind; [| intros ?]
      | progress autounfold with members
      | progress unfold and_then ]).

(** X2: in a frame of the editor window every Begin has its End, in the
    right order and under ImGui's conditions: [EndDock] and [EndChild] are
    always called, [EndMenuBar] and [EndMenu] exactly when [BeginMenuBar]
    and [BeginMenu] returned true, whatever menu command runs in between.
    [editorGUI], [menuGUI] and [drawGraph] each leave open what was open
    when they were called, and close nothing they did not open. *)
Theorem editorGUI_pairs_begin_end (s : Sys W) (st : list Frame) :
  (exists evs,
     trace (exec editorGUI s) = trace s ++ evs /\ check evs st = Some st) /\
  (exists evs,
     trace (exec menuGUI s) = trace s ++ evs /\ check evs st = Some st) /\
  (exists evs,
     trace (exec drawGraph s) = trace s ++ evs /\ check evs st = Some st).
Proof.
  assert (He : brackets (W := W) st (fun _ => st) editorGUI) by brackets_auto.
  assert (Hm : brackets (W := W) st (fun _ => st) menuGUI) by brackets_auto.
  assert (Hd : brackets (W := W) st (fun _ => st) drawGraph) by brackets_auto.
  split; [apply He | split; [apply Hm | apply Hd]].
Qed.

(** X3: a frame of the slots table pushes and pops ids and item widths in
    pairs, properly nested, for any number of sets and slots and whatever is
    renamed, erased or assigned on the way; and when the header is collapsed
    it returns before anything is pushed, leaving the editor, the resource
    and the rest of the trace alone. *)
Theorem animationSlotsGUI_pairs_push_pop (s : Sys W) (st : list Frame) :
  (exists evs,
     trace (exec animationSlotsGUI s) = trace s ++ evs /\ check evs st = Some st) /\
  (forall w,
     ImGui (CollapsingHeader "Animation slots") (world s) = (false, w) ->
     exec animationSlotsGUI s =
     mkSys (this s) (resource s) w
       (trace s ++ [EvImGui (CollapsingHeader "Animation slots") false])).
Proof.
  split.
  - assert (Ha : brackets (W := W) st (fun _ => st) animationSlotsGUI)
      by brackets_auto.
    apply Ha.
  - intros w Hw. unfold exec, animationSlotsGUI, imgui. unfold bind at 1, call at 1.
    by rewrite Hw.
Qed.

End Brackets.

(** ** Slot names stay distinct *)

Section DistinctNames.

Context {E : Engine} {W : Type} {H : Host W}.

#[local] Existing Instance keeping_resource_preorder.

#[local] Instance distinct_names_preorder : PreOrder distinct_names.
Proof.
  split; [intros r Hr; exact Hr | intros r1 r2 r3 H1 H2 Hr; by apply H2, H1].
Qed.

Lemma elem_of_insert_inv {A} (l : list A) (i : nat) (x y : A) :
  y ∈ <[i:=x]> l -> y = x \/ y ∈ l.
Proof.
  revert i. induction l as [|a l IH]; intros i; [by right |].
  destruct i as [|i]; simpl.
  - intros [-> | Hy]%elem_of_cons; [by left | right; by right].
  - intros [-> | Hy]%elem_of_cons; [right; by left |].
    destruct (IH _ Hy) as [-> | Hl]; [by left | right; by right].
Qed.

Lemma NoDup_insert_fresh {A} (l : list A) (i : nat) (x : A) :
  NoDup l -> x ∉ l -> NoDup (<[i:=x]> l).
Proof.
  intros Hl. revert i. induction Hl as [|a l Ha Hl IH]; intros i Hx; [constructor |].
  apply not_elem_of_cons in Hx as [Hxa Hxl].
  destruct i as [|i]; simpl.
  - by constructor.
  - constructor; [| by apply IH].
    by intros [-> | Hin]%elem_of_insert_inv.
Qed.

Lemma rename_slot_distinct (i : int) (name : string) :
  steps (keeping_resource distinct_names) (rename_slot (W := W) i name).
Proof.
  intros s. unfold keeping_resource, distinct_names.
  unfold rename_slot, slot_at, call_, call, bind, get_resource, set_resource, ret.
  cbn zeta. cbn [fst snd]. rewrite find_name_spec.
  destruct (bool_decide_reflect (name ∈ getAnimationSlots (resource s)))
    as [Hin | Hnin]; cbn; [done |].
  intros Hnd. by apply NoDup_insert_fresh.
Qed.

Lemma add_slot_distinct : steps (keeping_resource distinct_names) (add_slot (W := W)).
Proof.
  intros s. unfold keeping_resource, distinct_names.
  unfold add_slot, call_, call, bind, get_resource, set_resource, ret.
  cbn zeta. cbn [fst snd]. rewrite find_name_spec.
  destruct (bool_decide_reflect (EmptyString ∈ getAnimationSlots (resource s)))
    as [Hin | Hnin]; cbn; [done |].
  intros Hnd. apply NoDup_app. split; [done |]. split; [| apply NoDup_singleton].
  intros x Hx ->%list_elem_of_singleton. done.
Qed.

Lemma erase_distinct {B} (i : int) (k : unit -> M W B) :
  (forall a, steps (keeping_resource distinct_names) (k a)) ->
  steps (keeping_resource distinct_names)
    (do slots <- get_resource getAnimationSlots;
     do a <- set_resource (set_getAnimationSlots (Array.erase i slots));
     k a).
Proof.
  intros Hk s. unfold bind at 1 2, get_resource, set_resource.
  etransitivity; [| apply Hk].
  unfold keeping_resource, distinct_names, Array.erase. cbn.
  intros Hnd. destruct (_ && _); [| done].
  exact (sublist_NoDup _ _ Hnd (sublist_delete _ _)).
Qed.

Ltac distinct_prim :=
  first
    [ apply rename_slot_distinct
    | apply add_slot_distinct
    | apply erase_distinct; intros ?
    | apply keeping_resource_set_this; typeclasses eauto
    | apply keeping_resource_call; typeclasses eauto
    | apply keeping_resource_set_resource; intros r Hr; exact Hr ].

(** X4: a frame of the slots table keeps the slot names pairwise distinct,
    whatever is typed and pressed in it: a rename to a name in use is
    refused, a second slot with an empty name is refused, and erasing a row
    only removes a name.  In particular at most one slot has an empty name
    afterwards. *)
Theorem animationSlotsGUI_keeps_names_distinct (s : Sys W) :
  NoDup (getAnimationSlots (resource s)) ->
  NoDup (getAnimationSlots (resource (exec animationSlotsGUI s))) /\
  (empty_names (getAnimationSlots (resource (exec animationSlotsGUI s))) <= 1)%nat.
Proof.
  intros Hnd.
  assert (Hframe : steps (keeping_resource distinct_names) (animationSlotsGUI (W := W)))
    by steps_with distinct_prim.
  specialize (Hframe s Hnd). split; [exact Hframe |].
  unfold exec. revert Hframe.
  generalize (getAnimationSlots (resource (animationSlotsGUI s).2)).
  intros l Hl. unfold empty_names.
  induction Hl as [|a l Ha Hl IH]; simpl; [lia |].
  destruct (String.eqb_spec a EmptyString) as [-> | Hne]; [| exact IH].
  simpl. change (length (List.filter (fun val => String.eqb val EmptyString) l))
    with (empty_names l).
  rewrite (empty_names_0 l); [lia | done].
Qed.

End DistinctNames.

(** ** A cell edits one entry *)

Section Cells.

Context {E : Engine} {W : Type} {H : Host W}.






End Cells.

(** ** Registering and looking up event types *)

Section Registry.

Context {E : Engine} {W : Type} {H : Host W}.

Lemma getEventType_loop_app (l1 l2 : list EventType) (ty : u32) (k : nat) :
  getEventType_loop (l1 ++ l2) ty k =
  match getEventType_loop l1 ty k with
  | Some i => Some i
  | None => getEventType_loop l2 ty (k + length l1)
  end.
Proof.
  revert k. induction l1 as [|e l1 IH]; intros k; simpl.
  - by rewrite Nat.add_0_r.
  - destruct (type e =? ty); [done |]. rewrite IH. by rewrite Nat.add_succ_r.
Qed.

Lemma first_with_type_loop (l : list EventType) (ty : u32) (i : nat) :
  first_with_type l ty i -> getEventType_loop l ty 0 = Some i.
Proof.
  intros [(e & He & Hty) Hfirst].
  destruct (getEventType_loop l ty 0) as [i'|] eqn:Hloop.
  - apply getEventType_loop_found in Hloop as (j & -> & (e' & He' & Hty') & Hfirst').
    simpl. f_equal. destruct (Nat.lt_trichotomy j i) as [Hlt | [-> | Hgt]]; [| done |].
    + by destruct (Hfirst j e' Hlt He').
    + by destruct (Hfirst' i e Hgt He).
  - apply getEventType_loop_none in Hloop. destruct (Hloop e); [| done].
    by eapply list_elem_of_lookup_2.
Qed.

(** X6: [createEventType(name)] appends one event type with the tag
    [crc32(name)] and returns its index; the event types registered before
    keep their index and their content.  A lookup of that tag afterwards
    finds an event type with the tag, at the new index or at the index of an
    older event type with the same tag, which then hides the new one; and
    every lookup that found a match before finds the same one after. *)
Theorem createEventType_then_getEventType (s : Sys W) (name : string) :
  let old := m_event_types (this s) in
  let idx := eval (createEventType name) s in
  let s' := exec (createEventType name) s in
  idx = length old /\
  (exists e, m_event_types (this s') = old ++ [e] /\ type e = crc32 name) /\
  getEventTypesCount (this s') = getEventTypesCount (this s) + 1 /\
  (exists i e,
     getEventType (this s') (crc32 name) = Some i /\ (i <= idx)%nat /\
     getEventTypeByIdx (this s') (Z.of_nat i) = Some e /\ type e = crc32 name /\
     (no_event_type old (crc32 name) -> i = idx)) /\
  (forall ty i, first_with_type old ty i -> getEventType (this s') ty = Some i) /\
  this s' = set_m_event_types (m_event_types (this s')) (this s) /\
  resource s' = resource s /\ world s' = world s /\ trace s' = trace s.
Proof.
  cbn zeta. unfold exec, eval, createEventType, bind, get, set_this, ret, Array.push.
  cbn [fst snd this resource world trace m_event_types set_m_event_types].
  split; [done |]. split; [by eexists |].
  split; [unfold getEventTypesCount, Array.size; cbn; rewrite length_app; simpl; lia |].
  split; [| split; [| by destruct (this s)]].
  - unfold getEventType, getEventTypeByIdx. cbn [m_event_types set_m_event_types].
    rewrite getEventType_loop_app.
    destruct (getEventType_loop (m_event_types (this s)) (crc32 name) 0) as [i|] eqn:Hloop.
    + pose proof Hloop as Hfound.
      apply getEventType_loop_found in Hfound as (j & -> & (e & He & Hty) & _).
      exists j, e. simpl. split; [done |].
      pose proof (lookup_lt_Some _ _ _ He) as Hlt. split; [lia |].
      destruct (Z.ltb_spec (Z.of_nat j) 0); [lia |].
      unfold Array.get. rewrite Nat2Z.id, lookup_app_l by done.
      split; [done |]. split; [done |].
      intros Hnone. destruct (Hnone e); [| done]. by eapply list_elem_of_lookup_2.
    + simpl. unfold set_type. cbn [type]. rewrite Z.eqb_refl.
      eexists _, _. split; [done |]. split; [done |].
      destruct (Z.ltb_spec (Z.of_nat (length (m_event_types (this s)))) 0); [lia |].
      unfold Array.get. rewrite Nat2Z.id.
      rewrite lookup_app_r, Nat.sub_diag by done. simpl. done.
  - intros ty i Hfirst. unfold getEventType. cbn [m_event_types set_m_event_types].
    by rewrite getEventType_loop_app, (first_with_type_loop _ _ _ Hfirst).
Qed.

End Registry.

(** ** Opening, then saving *)

Section OpenThenSave.

Context {E : Engine} {W : Type} {H : Host W}.

Lemma load_keeps_fields (s : Sys W) :
  m_path (this (exec load s)) = m_path (this s) /\
  m_offset (this (exec load s)) = m_offset (this s) /\
  m_event_types (this (exec load s)) = m_event_types (this s) /\
  m_editor_opened (this (exec load s)) = m_editor_opened (this s) /\
  m_inputs_opened (this (exec load s)) = m_inputs_opened (this s).
Proof. run_members. by run_host. Qed.

(** X7: [load] leaves [m_path] as it is whether or not the file could be
    read and deserialized (and the canvas offset, the event types and the
    two window flags as well).  So a [save] after a [load] of a file with a
    non-empty path asks nothing and writes what the editor then holds to
    that same path, also when the load failed and what it holds is the new
    empty controller. *)
Theorem save_after_load_writes_the_loaded_path (s : Sys W) :
  cstr_empty (m_path (this s)) = false ->
  let loaded := exec load s in
  m_path (this loaded) = m_path (this s) /\
  m_offset (this loaded) = m_offset (this s) /\
  m_event_types (this loaded) = m_event_types (this s) /\
  m_editor_opened (this loaded) = m_editor_opened (this s) /\
  m_inputs_opened (this loaded) = m_inputs_opened (this s) /\
  exists blob r_open r_write,
    trace (exec save loaded) = trace loaded ++
      [ EvSerialize (m_resource (this loaded)) (resource loaded) blob;
        EvFileOpen (m_path (this s)) CREATE_AND_WRITE r_open;
        EvFileWrite blob (Array.size blob) r_write;
        EvFileClose ].
Proof.
  intros Hpath. cbn zeta.
  destruct (load_keeps_fields s) as (Hp & Ho & He & Hed & Hin).
  do 5 (split; [done |]).
  destruct (save_with_path (exec load s)) as (blob & r_open & r_write & Htr & _).
  { by rewrite Hp. }
  exists blob, r_open, r_write. by rewrite Htr, Hp.
Qed.

Lemma substring_length_le (n : nat) (str : string) :
  (String.length (String.substring 0 n str) <= n)%nat.
Proof.
  revert str. induction n as [|n IH]; intros [|c str]; simpl; try lia.
  specialize (IH str). lia.
Qed.

(** X8: "Open from selected entity" looks at the first selected entity
    only.  Without a selection, or when that entity has no valid controller
    component, it does nothing at all.  Otherwise it takes the source of
    that controller as the new [m_path], cut to the size of the path
    buffer, and loads it.  It never opens a file dialog. *)
Theorem loadFromEntity_first_selected_entity (s : Sys W) :
  (WorldEditor_getSelectedEntities (world s) = [] -> loadFromEntity s = (tt, s)) /\
  (forall e0 rest,
     WorldEditor_getSelectedEntities (world s) = e0 :: rest ->
     let ctrl := AnimationScene_getComponent ANIMABLE_HASH e0 CONTROLLER_TYPE (world s) in
     let src := AnimationScene_getControllerSource ANIMABLE_HASH ctrl (world s) in
     let named :=
       mkSys (set_m_path (copyString MAX_PATH_LENGTH src) (this s))
         (resource s) (world s) (trace s) in
     (isValid ctrl = false -> loadFromEntity s = (tt, s)) /\
     (isValid ctrl = true ->
      loadFromEntity s = load named /\
      m_path (this (exec loadFromEntity s)) = copyString MAX_PATH_LENGTH src /\
      (String.length (m_path (this (exec loadFromEntity s))) <= MAX_PATH_LENGTH - 1)%nat)) /\
  steps (emitting (fun e => is_dialog e = false)) (loadFromEntity (W := W)).
Proof.
  split; [| split].
  - intros Hsel. unfold loadFromEntity, bind, read. cbn. by rewrite Hsel.
  - intros e0 rest Hsel. cbn zeta. split.
    + intros Hinvalid. unfold loadFromEntity. unfold bind at 1, read at 1.
      rewrite Hsel. unfold bind at 1, read at 1. cbn [fst snd]. by rewrite Hinvalid.
    + intros Hvalid.
      assert (Heq : loadFromEntity s =
                    load (mkSys (set_m_path (copyString MAX_PATH_LENGTH
                            (AnimationScene_getControllerSource ANIMABLE_HASH
                               (AnimationScene_getComponent ANIMABLE_HASH e0
                                  CONTROLLER_TYPE (world s)) (world s))) (this s))
                            (resource s) (world s) (trace s))).
      { unfold loadFromEntity. unfold bind at 1, read at 1.
        rewrite Hsel. unfold bind at 1, read at 1. cbn [fst snd]. rewrite Hvalid.
        cbn [negb]. reflexivity. }
      split; [exact Heq |]. unfold exec. rewrite Heq.
      match goal with |- context [load ?s1] =>
        destruct (load_keeps_fields s1) as (Hp & _) end.
      unfold exec in Hp. rewrite Hp. cbn [this m_path set_m_path]. split; [done |].
      apply substring_length_le.
  - emitting_auto.
Qed.

End OpenThenSave.

(** ** Renaming a slot and back *)

Section RenameBack.

Context {E : Engine} {W : Type} {H : Host W}.

Lemma rehash_back (a b : u32) (entries : list AnimSetEntry) :
  (a = b \/ forall e, e ∈ entries -> hash e <> b) ->
  List.map (rehash b a) (List.map (rehash a b) entries) = entries.
Proof.
  intros Hab. rewrite List.map_map. erewrite map_ext_in; [apply map_id |].
  intros e He%list_elem_of_In. unfold rehash.
  destruct (Z.eqb_spec (hash e) a) as [Hea | Hea]; simpl.
  - rewrite Z.eqb_refl. destruct e; simpl in *. by subst.
  - destruct (Z.eqb_spec (hash e) b) as [Heb | Heb]; [| done].
    destruct Hab as [-> | Hab]; [done |]. by destruct (Hab e He).
Qed.

Lemma rename_slot_fresh (s : Sys W) (i : nat) (old name : string) :
  getAnimationSlots (resource s) !! i = Some old ->
  name ∉ getAnimationSlots (resource s) ->
  exec (rename_slot (Z.of_nat i) name) s =
  mkSys (this s)
        (set_getAnimationSlots (<[i := name]> (getAnimationSlots (resource s)))
           (set_m_animation_set
              (List.map (rehash (crc32 old) (crc32 name)) (m_animation_set (resource s)))
              (resource s)))
        (world s) (trace s).
Proof.
  intros Hold Hnin.
  unfold exec, rename_slot, slot_at, call_, call, bind, get_resource, set_resource, ret.
  cbn zeta. cbn [fst snd]. rewrite find_name_spec.
  rewrite (bool_decide_eq_false_2 _ Hnin). cbn.
  unfold Array.assign, Array.get. rewrite Nat2Z.id, Hold. done.
Qed.

(** X9: renaming slot [i] from [a] to an unused name [b] and then back to
    [a] is refused neither time, logs nothing and restores the state
    exactly, provided that [a] is the name of no other slot and that no
    entry carried the hash of [b] before (or the two names have the same
    hash): the entries of the slot follow the name there and back. *)
Theorem rename_slot_and_back (s : Sys W) (i : nat) (a b : string) :
  getAnimationSlots (resource s) !! i = Some a ->
  (forall j, getAnimationSlots (resource s) !! j = Some a -> j = i) ->
  b ∉ getAnimationSlots (resource s) ->
  (crc32 a = crc32 b \/
   forall e, e ∈ m_animation_set (resource s) -> hash e <> crc32 b) ->
  exec (rename_slot (Z.of_nat i) a) (exec (rename_slot (Z.of_nat i) b) s) = s.
Proof.
  intros Ha Honly Hb Hhash.
  assert (Hlt : (i < length (getAnimationSlots (resource s)))%nat)
    by (by eapply lookup_lt_Some).
  assert (Hback : a ∉ <[i:=b]> (getAnimationSlots (resource s))).
  { intros [j Hj]%list_elem_of_lookup. destruct (decide (j = i)) as [-> | Hne].
    - rewrite list_lookup_insert_eq in Hj by done. injection Hj as <-.
      apply Hb. by eapply list_elem_of_lookup_2.
    - rewrite list_lookup_insert_ne in Hj by done. by apply Honly in Hj. }
  rewrite (rename_slot_fresh s i a b Ha Hb).
  erewrite (rename_slot_fresh _ i b a).
  - cbn. rewrite rehash_back by done.
    rewrite list_insert_insert_eq, list_insert_id by done.
    destruct s as [t r w tr]. by destruct r.
  - cbn. by apply list_lookup_insert_eq.
  - exact Hback.
Qed.

End RenameBack.

(** ** A frame of the slots table *)

Section Unchanged.

Context {E : Engine} {W : Type} {H : Host W}.

Variable P : Event -> Prop.

#[global] Instance unchanged_if_preorder : PreOrder (unchanged_if (W := W) P).
Proof.
  split.
  - intros s. exists []. split; [by rewrite app_nil_r | done].
  - intros s1 s2 s3 (e1 & H1 & F1) (e2 & H2 & F2). exists (e1 ++ e2). split.
    + by rewrite H2, H1, app_assoc.
    + intros [Hi1 Hi2]%Forall_app. rewrite F2, F1; done.
Qed.

Lemma unchanged_call {A} (f : W -> A * W) (ev : A -> Event) :
  steps (unchanged_if P) (call f ev).
Proof.
  intros s. unfold call. destruct (f (world s)) as [a w]. simpl.
  exists [ev a]. done.
Qed.

(** The continuation of a call may rely on the call having been answered
    as [P] says. *)
Lemma unchanged_bind_call {A B} (f : W -> A * W) (ev : A -> Event) (k : A -> M W B) :
  (forall a, steps (emitting (fun _ => True)) (k a)) ->
  (forall a, P (ev a) -> steps (unchanged_if P) (k a)) ->
  steps (unchanged_if P) (bind (call f ev) k).
Proof.
  intros Hem Hk s. unfold bind, call. destruct (f (world s)) as [a w].
  set (s1 := mkSys (this s) (resource s) w (trace s ++ [ev a])).
  destruct (Hem a s1) as (evs & Htr & _). exists (ev a :: evs). split.
  - rewrite Htr. simpl. by rewrite <- app_assoc.
  - intros [Ha Hevs]%Forall_cons.
    destruct (Hk a Ha s1) as (evs' & Htr' & Hres).
    rewrite Htr in Htr'. apply app_inv_head in Htr'. subst evs'.
    by rewrite Hres.
Qed.

Lemma assign_same {A} (j : int) (d : A) (l : list A) :
  Array.assign j (default d (Array.get j l)) l = l.
Proof.
  unfold Array.assign, Array.get.
  destruct (l !! Z.to_nat j) as [a|] eqn:Hj; simpl.
  - by apply list_insert_id.
  - apply list_insert_ge. by apply lookup_ge_None.
Qed.

Lemma unchanged_set_header (HP : forall e, P e -> untouched e) (j : int) :
  steps (unchanged_if P) (set_header (W := W) j).
Proof.
  intros s. unfold set_header, imgui_, call_.
  unfold call, bind, get_resource, set_resource, ret.
  cbn beta iota zeta delta [fst snd this resource world trace].
  repeat host_call. eexists. split.
  - cbn [trace]. rewrite <- !app_assoc. cbn [app]. reflexivity.
  - rewrite !Forall_cons. intros (_ & _ & [_ Hout]%HP & _). cbn in Hout.
    rewrite Hout, assign_same. by destruct (resource s).
Qed.

End Unchanged.

Ltac unchanged_prim HP :=
  first
    [ progress cbv beta zeta
    | apply (unchanged_set_header _ HP)
    | apply unchanged_call
    | match goal with
      | |- steps _ (bind (imgui _) _) => unfold imgui at 1
      | |- steps _ (bind (call _ _) _) => idtac
      end;
      apply unchanged_bind_call;
      [ intros ?; emitting_auto
      | let a := fresh "a" in
        let Hidle := fresh "Hidle" in
        intros a Hidle; cbv beta iota delta [idle untouched] in Hidle;
        try match type of a with
            | (_ * _)%type => destruct a as [? ?]; cbn [fst snd] in Hidle
            end;
        repeat match goal with Hc : _ /\ _ |- _ => destruct Hc end;
        subst; cbn [fst snd when negb] ] ].

Section IdleFrame.

Context {E : Engine} {W : Type} {H : Host W}.

Lemma idle_untouched (e : Event) : idle e -> untouched e.
Proof. by intros [He _]. Qed.



Lemma animationSlotsGUI_idle : steps (unchanged_if idle) (animationSlotsGUI (W := W)).
Proof. steps_with ltac:(unchanged_prim idle_untouched). Qed.

Lemma animationSlotsGUI_table_events :
  steps (emitting table_event) (animationSlotsGUI (W := W)).
Proof. emitting_auto. Qed.

Lemma animationSlotsGUI_keeps_editor :
  steps (keeping eq) (animationSlotsGUI (W := W)).
Proof. keeping_auto. Qed.

#[local] Existing Instance keeping_resource_preorder.

#[local] Instance same_root_preorder : PreOrder same_root.
Proof. split; [done | intros r1 r2 r3; unfold same_root; congruence]. Qed.

Lemma animationSlotsGUI_keeps_root :
  steps (keeping_resource same_root) (animationSlotsGUI (W := W)).
Proof.
  steps_with ltac:(first
    [ apply keeping_resource_set_this; typeclasses eauto
    | apply keeping_resource_call; typeclasses eauto
    | apply keeping_resource_set_resource; intros; done ]).
Qed.

(** X10: a frame of the slots table only talks to the GUI library, the
    asset browser's resource field, the animation manager and the error
    log: it opens no file and no dialog, and neither serializes, creates
    nor deletes a controller.  It changes no field of the editor and not the
    root of the resource; what is edited in the table stays in memory. *)
Theorem animationSlotsGUI_edits_in_memory (s : Sys W) :
  this (exec animationSlotsGUI s) = this s /\
  getRoot (resource (exec animationSlotsGUI s)) = getRoot (resource s) /\
  exists evs, trace (exec animationSlotsGUI s) = trace s ++ evs /\
              Forall table_event evs.
Proof.
  split; [symmetry; apply (animationSlotsGUI_keeps_editor s) |].
  split; [apply (animationSlotsGUI_keeps_root s) |].
  apply (animationSlotsGUI_table_events s).
Qed.

(** X11: a frame of the slots table in which no button is pressed, no text
    field returns true or changes its text and no resource field returns
    true leaves the resource as it was, however many rows and columns the
    table has. *)
Theorem animationSlotsGUI_idle_frame (s : Sys W) :
  exists evs, trace (exec animationSlotsGUI s) = trace s ++ evs /\
    (Forall idle evs -> resource (exec animationSlotsGUI s) = resource s).
Proof. apply (animationSlotsGUI_idle s). Qed.

End IdleFrame.

(** ** The container shown and the resource *)

Section Root.

Context {E : Engine} {W : Type} {H : Host W}.

#[local] Instance stays_at_root_preorder : PreOrder (stays_at_root (W := W)).
Proof.
  split; [intros s Hs; exact Hs | intros s1 s2 s3 H1 H2 Hs; by apply H2, H1].
Qed.

Lemma new_m_resource_at_root (s : Sys W) : at_root (exec new_m_resource s).
Proof. run_members. run_host. reflexivity. Qed.

Lemma load_at_root (s : Sys W) : at_root (exec load s).
Proof. run_members. run_host; reflexivity. Qed.

Lemma root_new_m_resource : steps stays_at_root (new_m_resource (W := W)).
Proof. intros s _. apply new_m_resource_at_root. Qed.

Lemma root_load : steps stays_at_root (load (W := W)).
Proof. intros s _. apply load_at_root. Qed.

Lemma root_set_this (f : AnimationEditor -> AnimationEditor) :
  (forall e, m_container (f e) = m_container e) ->
  steps stays_at_root (set_this (W := W) f).
Proof. intros Hf s. unfold stays_at_root, at_root. simpl. by rewrite Hf. Qed.

Lemma root_set_resource (f : ControllerResource -> ControllerResource) :
  (forall r, getRoot (f r) = getRoot r) ->
  steps stays_at_root (set_resource (W := W) f).
Proof. intros Hf s. unfold stays_at_root, at_root. simpl. by rewrite Hf. Qed.

Lemma root_call {A} (f : W -> A * W) (ev : A -> Event) :
  steps stays_at_root (call f ev).
Proof.
  intros s. unfold call. destruct (f (world s)) as [a w]. intros Hs. exact Hs.
Qed.

Lemma root_createEventType (ty : string) :
  steps stays_at_root (createEventType (W := W) ty).
Proof. intros s Hs. exact Hs. Qed.

Ltac root_prim :=
  first
    [ apply root_load
    | apply root_new_m_resource
    | apply root_createEventType
    | apply root_call
    | apply root_set_this; intros; reflexivity
    | apply root_set_resource; intros; reflexivity ].

(** X12: whenever the editor replaces or reloads its controller (in the
    constructor, in [load], in [newController]), [m_container] is the root
    of the controller the editor holds afterwards, so it never points into
    the deleted one.  Every operation other than [setContainer] and the two
    that show "Go up" keeps [m_container] at that root. *)
Theorem container_follows_the_resource :
  (forall w : W, at_root (construct w)) /\
  (forall s : Sys W, at_root (exec load s)) /\
  (forall s : Sys W, at_root (exec newController s)) /\
  (forall (s : Sys W) (op : Operation),
     navigates op = false -> at_root s -> at_root (exec (run op) s)).
Proof.
  split; [| split; [exact load_at_root | split]].
  - intros w. unfold construct, AnimationEditor_ctor, createEventType.
    run_members. run_host. reflexivity.
  - intros s. run_members. run_host. reflexivity.
  - intros s op Hop.
    assert (Hsteps : steps stays_at_root (run (W := W) op))
      by (destruct op; try discriminate Hop; steps_with root_prim).
    apply Hsteps.
Qed.

End Root.

(** ** The loops of the slots table *)

Section Loops.

Context {E : Engine} {W : Type} {H : Host W}.

(** X13: the loops of the slots table end.  The loop over the rows, whose
    body may erase its row and step the index back, makes no more
    iterations than there are slots when it starts; the loop over the
    header cells and the loop over the cells of a row make no more than
    there are sets.  (Iterations a loop is allowed beyond that are not
    used.) *)
Theorem animationSlotsGUI_loops_end (s : Sys W) (slot_hash : u32) (extra : nat) :
  let slots := getAnimationSlots (resource s) in
  let sets := m_sets_names (resource s) in
  let rows := get_resource (fun r => Array.size (getAnimationSlots r)) in
  let columns := get_resource (fun r => Array.size (m_sets_names r)) in
  for_loop (length slots + extra) 0 rows slot_row s =
    for_loop (length slots) 0 rows slot_row s /\
  for_loop (length sets + extra) 0 columns set_header s =
    for_loop (length sets) 0 columns set_header s /\
  for_loop (length sets + extra) 0 columns (slot_cell slot_hash) s =
    for_loop (length sets) 0 columns (slot_cell slot_hash) s.
Proof.
  cbn zeta. split; [apply slot_rows_fuel |].
  split; [apply set_headers_fuel | apply slot_cells_fuel].
Qed.

End Loops.

(** ** Running a member call by call *)

Section Run.

Context {W : Type}.

Lemma run_bind_bind {A B C} (m : M W A) (f : A -> M W B) (k : B -> M W C) (s : Sys W) :
  bind (bind m f) k s = bind m (fun a => bind (f a) k) s.
Proof. unfold bind. by destruct (m s). Qed.

Lemma run_bind_ret {A B} (a : A) (k : A -> M W B) (s : Sys W) :
  bind (ret a) k s = k a s.
Proof. reflexivity. Qed.

Lemma run_bind_get {A B} (f : AnimationEditor -> A) (k : A -> M W B) (s : Sys W) :
  bind (get f) k s = k (f (this s)) s.
Proof. reflexivity. Qed.

Lemma run_bind_set_this {B} (f : AnimationEditor -> AnimationEditor)
    (k : unit -> M W B) (s : Sys W) :
  bind (set_this f) k s = k tt (mkSys (f (this s)) (resource s) (world s) (trace s)).
Proof. reflexivity. Qed.

Lemma run_bind_get_resource {A B} (f : ControllerResource -> A) (k : A -> M W B)
    (s : Sys W) :
  bind (get_resource f) k s = k (f (resource s)) s.
Proof. reflexivity. Qed.

Lemma run_bind_set_resource {B} (f : ControllerResource -> ControllerResource)
    (k : unit -> M W B) (s : Sys W) :
  bind (set_resource f) k s = k tt (mkSys (this s) (f (resource s)) (world s) (trace s)).
Proof. reflexivity. Qed.

Lemma run_bind_call {A B} (f : W -> A * W) (ev : A -> Event) (k : A -> M W B)
    (s : Sys W) :
  bind (call f ev) k s =
  let (a, w) := f (world s) in
  k a (mkSys (this s) (resource s) w (trace s ++ [ev a])).
Proof. unfold bind, call. by destruct (f (world s)). Qed.

Lemma run_bind_run {A B} (m : M W A) (k : A -> M W B) (s : Sys W) :
  bind m k s = k (m s).1 (m s).2.
Proof. unfold bind. by destruct (m s). Qed.

End Run.

Ltac run_step_in Hrun :=
  first
    [ rewrite run_bind_bind in Hrun | rewrite run_bind_ret in Hrun
    | rewrite run_bind_get in Hrun | rewrite run_bind_set_this in Hrun
    | rewrite run_bind_get_resource in Hrun | rewrite run_bind_set_resource in Hrun
    | rewrite run_bind_call in Hrun ];
  cbv beta zeta in Hrun; cbn [fst snd this resource world trace when] in Hrun.

(** ** Erasing a row *)

Section EraseRow.

Context {E : Engine} {W : Type} {H : Host W}.


End EraseRow.

(** ** What is drawn on the canvas *)

Section Canvas.

Context {E : Engine} {W : Type} {H : Host W}.


End Canvas.

(** ** The dock window of the editor *)

Section Dock.

Context {E : Engine} {W : Type} {H : Host W}.

#[local] Instance same_windows_preorder : PreOrder same_windows.
Proof.
  split; [done |]. intros e1 e2 e3 (H1 & H2 & H3) (H4 & H5 & H6).
  unfold same_windows. split; [congruence |]. split; congruence.
Qed.

(** X16: a frame of [editorGUI] starts with [BeginDock] on the window
    "Animation Editor", which is handed [m_editor_opened], and ends with
    [EndDock] whatever [BeginDock] returned.  [m_editor_opened] is what
    [BeginDock] wrote to it (closing the window is seen by
    [isEditorOpened]); the other window flag and the event types stay.
    When [BeginDock] returns false nothing is shown and nothing else
    changes. *)
Theorem editorGUI_follows_the_dock (s : Sys W) :
  let s' := exec editorGUI s in
  exists r opened' evs,
    trace s' = trace s ++
      EvBeginDock "Animation Editor" (m_editor_opened (this s))
        ImGuiWindowFlags_MenuBar r opened'
      :: evs ++ [EvImGuiCmd EndDock] /\
    isEditorOpened (this s') = opened' /\
    isInputsOpened (this s') = isInputsOpened (this s) /\
    m_event_types (this s') = m_event_types (this s) /\
    (r = false ->
     evs = [] /\ this s' = set_m_editor_opened opened' (this s) /\
     resource s' = resource s).
Proof.
  cbn zeta. unfold exec, isEditorOpened, isInputsOpened.
  destruct (editorGUI s) as [[] s'] eqn:Hrun. cbn [snd].
  unfold editorGUI in Hrun. repeat run_step_in Hrun.
  destruct (ImGui_BeginDock _ _ _ _) as [[[] opened'] w1];
    cbn [fst snd this resource world trace when] in Hrun;
    rewrite run_bind_set_this in Hrun;
    cbn [fst snd this resource world trace when] in Hrun.
  - (* the window is shown *)
    match type of Hrun with
    | bind ?m _ ?s1 = _ =>
        assert (Hem : steps (emitting (fun _ => True)) m) by emitting_auto;
        assert (Hkeep : steps (keeping same_windows) m) by keeping_auto;
        destruct (Hem s1) as (evs & Htr & _); specialize (Hkeep s1);
        rewrite run_bind_run in Hrun;
        destruct (m s1) as [[] s2]
    end.
    unfold keeping, same_windows in Hkeep.
    cbn [fst snd this resource world trace m_editor_opened m_inputs_opened
         m_event_types set_m_editor_opened] in Hrun, Htr, Hkeep.
    destruct Hkeep as (Hed & Hin & Hev).
    unfold imgui_, call_, call in Hrun. injection Hrun as <-.
    exists true, opened', evs. cbn [trace this resource].
    split; [rewrite Htr; by trace_eq |]. done.
  - (* the window is hidden *)
    rewrite run_bind_ret in Hrun.
    unfold imgui_, call_, call in Hrun. injection Hrun as <-.
    exists false, opened', []. cbn [trace this resource].
    split; [by trace_eq |]. done.
Qed.

End Dock.

(** ** Open, then Save *)

Section OpenSave.

Context {E : Engine} {W : Type} {H : Host W}.

(** X17: "Open" asks for a file with the open dialog, which writes into
    [m_path]; when the dialog is cancelled no file is touched and nothing
    is loaded ([m_path] holds what the dialog left there), otherwise
    [m_path] is loaded.  A "Save" after an "Open" that was confirmed with a
    non-empty path asks nothing and writes what the editor then holds to
    the path that was opened. *)
Theorem loadFromFile_then_save (s : Sys W) :
  exists ok out w,
    PlatformInterface_getOpenFilename (m_path (this s)) (Z.of_nat MAX_PATH_LENGTH)
      ACT_FILTER EmptyString (world s) = (ok, out, w) /\
    let prompted :=
      mkSys (set_m_path out (this s)) (resource s) w
        (trace s ++ [EvGetOpenFilename (m_path (this s)) (Z.of_nat MAX_PATH_LENGTH)
                       ACT_FILTER EmptyString ok out]) in
    let opened := exec loadFromFile s in
    opened = (if ok then exec load prompted else prompted) /\
    (ok = true -> cstr_empty out = false ->
     exists blob r_open r_write,
       trace (exec save opened) = trace opened ++
         [ EvSerialize (m_resource (this opened)) (resource opened) blob;
           EvFileOpen out CREATE_AND_WRITE r_open;
           EvFileWrite blob (Array.size blob) r_write;
           EvFileClose ]).
Proof.
  destruct (PlatformInterface_getOpenFilename (m_path (this s))
              (Z.of_nat MAX_PATH_LENGTH) ACT_FILTER EmptyString (world s))
    as [[ok out] w] eqn:Hdialog.
  exists ok, out, w. split; [done |]. cbn zeta.
  assert (Hopen : exec loadFromFile s =
                  if ok
                  then exec load
                         (mkSys (set_m_path out (this s)) (resource s) w
                            (trace s ++
                               [EvGetOpenFilename (m_path (this s))
                                  (Z.of_nat MAX_PATH_LENGTH) ACT_FILTER EmptyString
                                  ok out]))
                  else mkSys (set_m_path out (this s)) (resource s) w
                         (trace s ++
                            [EvGetOpenFilename (m_path (this s))
                               (Z.of_nat MAX_PATH_LENGTH) ACT_FILTER EmptyString
                               ok out])).
  { unfold exec, loadFromFile, getOpenFilename_m_path.
    unfold call, bind, get, set_this, ret.
    cbn beta iota zeta delta [fst snd this resource world trace].
    fold ACT_FILTER. rewrite Hdialog.
    cbn beta iota zeta delta [fst snd this resource world trace].
    by destruct ok. }
  split; [exact Hopen |]. intros -> Hout. rewrite Hopen.
  match goal with
  | |- context [exec load ?p] =>
      destruct (load_keeps_fields p) as (Hp & _);
      destruct (save_with_path (exec load p)) as (blob & r_open & r_write & Htr & _);
      [by rewrite Hp | exists blob, r_open, r_write; by rewrite Htr, Hp]
  end.
Qed.

End OpenSave.

(** ** The properties at work in the small world *)

Section Examples.

#[local] Existing Instance Demo.engine.
#[local] Existing Instance Demo.host.

Local Abbreviation fresh_editor := (Demo.start Demo.idle).
Local Abbreviation readonly_editor :=
  (Demo.at_path "/ro/hero.act"
     (Demo.start (Demo.with_readonly ["/ro/hero.act"] Demo.idle))).

(** Loading with nothing on disk: [open] and [read] fail, the empty buffer is
    rejected, and the editor ends with a new resource at a new address. *)
Example load_with_nothing_on_disk :
  trace (exec load fresh_editor) =
  trace fresh_editor ++
    [ EvFileOpen EmptyString OPEN_AND_READ false;
      EvFileSize 0;
      EvFileRead 0 false [];
      EvDeserialize 100 [] 0 false (mkControllerResource 101 [] [] []);
      EvDelete 100 (mkControllerResource 101 [] [] []);
      EvNew 2 1 102 (mkControllerResource 103 [] [] []);
      EvFileClose ] /\
  m_resource (this (exec load fresh_editor)) = 102 /\
  m_container (this (exec load fresh_editor)) = 103.
Proof. by vm_compute. Qed.


(** Clicking "New" in the File menu. *)
Lemma File_menu_offers_five_commands_witness :
  let s := Demo.start (Demo.with_clicked ["New"] Demo.idle) in
  let asked :=
    mkSys (this s) (resource s) (world s)
      (trace s ++ [EvImGui (MenuItem "New" None false true) true]) in
  ImGui (MenuItem "New" None false true) (world s) = (true, world s) /\
  offer [("New", newController); ("Save", save)] (imgui_ EndMenu) s =
  offer [("Save", save)] (imgui_ EndMenu) (exec newController asked).
Proof.
  cbn zeta. split; [reflexivity |].
  exact (proj1 (proj2 File_menu_offers_five_commands)
           "New" newController [("Save", save)] (imgui_ EndMenu)
           (Demo.start (Demo.with_clicked ["New"] Demo.idle)) true _ eq_refl).
Defined.

(** Saving to a path that cannot be written, and loading a path that does
    not exist: the calls fail and the editor carries on. *)
Lemma file_results_are_not_checked_witness :
  let s := readonly_editor in
  (cstr_empty (m_path (this s)) = false /\
   OsFile_open (m_path (this s)) CREATE_AND_WRITE (world s) = (false, world s) /\
   OsFile_write [x4c] 1 (world s) = (false, world s) /\
   this (exec save s) = this s) /\
  (OsFile_open (m_path (this s)) OPEN_AND_READ (world s) = (false, world s) /\
   OsFile_read 0 (world s) = (false, [], world s) /\
   m_resource (this (exec load s)) = 102).
Proof.
  cbn zeta.
  assert (Hpath : cstr_empty (m_path (this readonly_editor)) = false)
    by reflexivity.
  assert (Hcreate : OsFile_open (m_path (this readonly_editor)) CREATE_AND_WRITE
                      (world readonly_editor) = (false, world readonly_editor))
    by reflexivity.
  assert (Hwrite : OsFile_write
                     (ControllerResource_serialize (resource readonly_editor)
                        (world readonly_editor))
                     (Array.size (ControllerResource_serialize
                                    (resource readonly_editor) (world readonly_editor)))
                     (world readonly_editor) = (false, world readonly_editor))
    by reflexivity.
  assert (Hopen : OsFile_open (m_path (this readonly_editor)) OPEN_AND_READ
                    (world readonly_editor) = (false, world readonly_editor))
    by reflexivity.
  assert (Hread : OsFile_read (int_of_size_t (OsFile_size (world readonly_editor)))
                    (world readonly_editor) = (false, [], world readonly_editor))
    by reflexivity.
  split.
  - do 3 (split; [reflexivity |]). unfold exec.
    by rewrite (proj1 (proj2 file_results_are_not_checked) readonly_editor
                  false (world readonly_editor) false (world readonly_editor)
                  Hpath Hcreate Hwrite).
  - do 2 (split; [reflexivity |]). unfold exec.
    by rewrite (proj2 (proj2 file_results_are_not_checked) readonly_editor
                  false (world readonly_editor) false [] (world readonly_editor)
                  Hopen Hread).
Defined.

Lemma file_dialogs_filter_act_witness :
  let s := fresh_editor in
  cstr_empty (m_path (this s)) = true /\
  exists ok out evs,
    trace (exec save s) = trace s ++
      EvGetSaveFilename EmptyString 260 ACT_FILTER EmptyString ok out :: evs.
Proof.
  cbn zeta. split; [reflexivity |].
  exact (proj1 (proj2 (proj2 file_dialogs_filter_act) fresh_editor) eq_refl).
Defined.


(** Renaming "walk" to "run": both entries of "walk" follow. *)
Lemma rename_slot_atomic_witness :
  let s := Demo.with_slots fresh_editor in
  getAnimationSlots (resource s) !! 1%nat = Some "walk" /\
  getAnimationSlots (resource (exec (rename_slot 1 "run") s)) = ["idle"; "run"] /\
  m_animation_set (resource (exec (rename_slot 1 "run") s)) =
    [ mkAnimSetEntry 0 (crc32 "idle") 7;
      mkAnimSetEntry 0 (crc32 "run") 8;
      mkAnimSetEntry 1 (crc32 "run") 9 ].
Proof.
  cbn zeta. split; [reflexivity |].
  destruct (rename_slot_atomic (Demo.with_slots fresh_editor) 1 "walk" "run" eq_refl)
    as (_ & Hrename & _).
  destruct Hrename as [Hslots Hentries]; [| split; [exact Hslots | exact Hentries]].
  intros (j & Hj & Hlookup).
  destruct j as [|[|[|j]]]; simpl in Hlookup; congruence.
Defined.

Lemma getEventType_first_match_or_index_0_witness :
  reachable fresh_editor /\
  exists i,
    getEventType (this fresh_editor) (crc32 "no_such_event") = Some i /\
    (first_with_type (m_event_types (this fresh_editor)) (crc32 "no_such_event") i \/
     (no_event_type (m_event_types (this fresh_editor)) (crc32 "no_such_event") /\
      i = 0%nat /\ is_Some (m_event_types (this fresh_editor) !! 0%nat))).
Proof.
  split; [apply reachable_construct |].
  exact (proj2 getEventType_first_match_or_index_0 fresh_editor
           (crc32 "no_such_event") (reachable_construct Demo.idle)).
Defined.

Example getEventType_of_unknown_type :
  getEventType (this fresh_editor) (crc32 "set_input") = Some 0%nat /\
  getEventType (this fresh_editor) (crc32 "no_such_event") = Some 0%nat /\
  getEventType AnimationEditor_fields (crc32 "set_input") = None.
Proof. by vm_compute. Qed.

(** Adding a row twice: the second press only logs. *)
Lemma add_slot_at_most_one_empty_name_witness :
  let s := exec add_slot fresh_editor in
  EmptyString ∈ getAnimationSlots (resource s) /\
  getAnimationSlots (resource (exec add_slot s)) = [EmptyString] /\
  (empty_names (getAnimationSlots (resource (exec add_slot s))) <= 1)%nat.
Proof.
  cbn zeta.
  destruct (add_slot_at_most_one_empty_name (exec add_slot fresh_editor))
    as (Hexists & _ & Hinv & _).
  assert (Hin : EmptyString ∈ getAnimationSlots (resource (exec add_slot fresh_editor)))
    by (vm_compute; left).
  split; [exact Hin |]. split.
  - by destruct (Hexists Hin) as [-> _].
  - apply Hinv. vm_compute. lia.
Defined.

(** A frame of the slots table in which Enter confirms "run" in the name
    fields: the first row takes the name, the second is refused. *)
Example animationSlotsGUI_rename_frame :
  let s := Demo.with_slots (Demo.start (Demo.with_typed (Some "run") Demo.idle)) in
  let s' := exec animationSlotsGUI s in
  getAnimationSlots (resource s') = ["run"; "walk"] /\
  hash <$> m_animation_set (resource s') = [crc32 "run"; crc32 "walk"; crc32 "walk"] /\
  Demo.errors (world s') = ["Slot run already exists."].
Proof. by vm_compute. Qed.

(** A frame in which every "x" is pressed: each row is erased in turn, with
    its entries. *)
Example animationSlotsGUI_erase_frame :
  let s := Demo.with_slots (Demo.start (Demo.with_clicked ["x"] Demo.idle)) in
  let s' := exec animationSlotsGUI s in
  getAnimationSlots (resource s') = [] /\ m_animation_set (resource s') = [].
Proof. by vm_compute. Qed.

(** Opening the controller of the selected entity, from a file that starts
    with the expected byte. *)
Example loadFromEntity_reads_source :
  let s := Demo.start
             (Demo.with_files [("hero.act", [x4c; x00])]
                (Demo.with_selected [5] [(5, "hero.act")] Demo.idle)) in
  let s' := exec loadFromEntity s in
  m_path (this s') = "hero.act" /\
  m_resource (this s') = m_resource (this s) /\
  trace s' = trace s ++
    [ EvFileOpen "hero.act" OPEN_AND_READ true;
      EvFileSize 2;
      EvFileRead 2 true [x4c; x00];
      EvDeserialize 100 [x4c; x00] 2 true (resource s);
      EvFileClose ].
Proof. by vm_compute. Qed.

(** After a failed load the editor holds the second controller it made;
    the destructor deletes that one. *)
Lemma one_resource_at_a_time_witness :
  let s := exec (run OpLoad) fresh_editor in
  reachable s /\
  alloc_run None (trace s) = Some (Some 102) /\
  alloc_run None (trace (exec AnimationEditor_dtor s)) = Some None.
Proof.
  cbn zeta.
  assert (Hs : reachable (exec (run OpLoad) fresh_editor))
    by (apply reachable_run, reachable_construct).
  split; [exact Hs |].
  exact (one_resource_at_a_time (exec (run OpLoad) fresh_editor) Hs).
Defined.

(** Enter confirms "run" in both name fields: the names stay distinct. *)
Lemma animationSlotsGUI_keeps_names_distinct_witness :
  let s := Demo.with_slots (Demo.start (Demo.with_typed (Some "run") Demo.idle)) in
  NoDup (getAnimationSlots (resource s)) /\
  NoDup (getAnimationSlots (resource (exec animationSlotsGUI s))) /\
  (empty_names (getAnimationSlots (resource (exec animationSlotsGUI s))) <= 1)%nat.
Proof.
  cbn zeta.
  assert (Hnd : NoDup (getAnimationSlots
                         (resource (Demo.with_slots
                            (Demo.start (Demo.with_typed (Some "run") Demo.idle)))))).
  { apply (NoDup_cons_2 "idle" ["walk"]); [| apply NoDup_singleton].
    by intros [=]%list_elem_of_singleton. }
  split; [exact Hnd |].
  exact (animationSlotsGUI_keeps_names_distinct _ Hnd).
Defined.

(** Load and then Save of "hero.act": no dialog, the file is written. *)
Lemma save_after_load_writes_the_loaded_path_witness :
  let s := Demo.at_path "hero.act" fresh_editor in
  cstr_empty (m_path (this s)) = false /\
  exists blob r_open r_write,
    trace (exec save (exec load s)) = trace (exec load s) ++
      [ EvSerialize (m_resource (this (exec load s))) (resource (exec load s)) blob;
        EvFileOpen "hero.act" CREATE_AND_WRITE r_open;
        EvFileWrite blob (Array.size blob) r_write;
        EvFileClose ].
Proof.
  cbn zeta.
  assert (Hpath : cstr_empty (m_path (this (Demo.at_path "hero.act" fresh_editor))) = false)
    by reflexivity.
  split; [exact Hpath |].
  exact (proj2 (proj2 (proj2 (proj2 (proj2
           (save_after_load_writes_the_loaded_path
              (Demo.at_path "hero.act" fresh_editor) Hpath)))))).
Defined.

(** "walk" is renamed to "run" and back. *)
Lemma rename_slot_and_back_witness :
  let s := Demo.with_slots fresh_editor in
  getAnimationSlots (resource s) !! 1%nat = Some "walk" /\
  ("run" ∉ getAnimationSlots (resource s)) /\
  exec (rename_slot (Z.of_nat 1) "walk") (exec (rename_slot (Z.of_nat 1) "run") s) = s.
Proof.
  cbn zeta.
  assert (Hwalk : getAnimationSlots (resource (Demo.with_slots fresh_editor)) !! 1%nat
                  = Some "walk") by reflexivity.
  assert (Honly : forall j,
            getAnimationSlots (resource (Demo.with_slots fresh_editor)) !! j
            = Some "walk" -> j = 1%nat).
  { intros [|[|[|j]]] Hj; simpl in Hj; congruence. }
  assert (Hrun : "run" ∉ getAnimationSlots (resource (Demo.with_slots fresh_editor))).
  { intros Hin. repeat (apply elem_of_cons in Hin as [Hin | Hin]; [discriminate Hin |]).
    by apply elem_of_nil in Hin. }
  assert (Hhash : forall e,
            e ∈ m_animation_set (resource (Demo.with_slots fresh_editor)) ->
            hash e <> crc32 "run").
  { intros e He. unfold Demo.with_slots in He. cbn [resource m_animation_set] in He.
    repeat (apply elem_of_cons in He as [-> | He]; [vm_compute; discriminate |]).
    inversion He. }
  split; [exact Hwalk |]. split; [exact Hrun |].
  exact (rename_slot_and_back (Demo.with_slots fresh_editor) 1 "walk" "run"
           Hwalk Honly Hrun (or_intror Hhash)).
Defined.


(** The first row of the table when its "x" is pressed, and a frame in
    which nothing is touched. *)
Example slot_row_erase_first :
  let s := Demo.with_slots (Demo.start (Demo.with_clicked ["x"] Demo.idle)) in
  let s' := exec (slot_row 0) s in
  eval (slot_row 0) s = -1 /\
  getAnimationSlots (resource s') = ["walk"] /\
  m_animation_set (resource s') =
    [mkAnimSetEntry 0 (crc32 "walk") 8; mkAnimSetEntry 1 (crc32 "walk") 9].
Proof. by vm_compute. Qed.

Example animationSlotsGUI_untouched_frame :
  let s := Demo.with_slots fresh_editor in
  resource (exec animationSlotsGUI s) = resource s /\
  this (exec animationSlotsGUI s) = this s.
Proof. by vm_compute. Qed.

End Examples.
